(** * ComfyUI-wanBlockswap: the [WanVideoBlockSwap] node of [nodes.py]

    The node clones a model patcher and registers two closures on it:
    [swap_blocks_after_load] (post-load hook), which distributes the
    blocks of a WAN21 network over the load and the offload device, and
    [cleanup_after_sampling] (post-use hook), which unpatches the model
    and reclaims memory.

    The embedding is shallow.  Python objects that the code mutates and
    shares (model patchers, base models) live in a store indexed by
    their identity ([id(obj)], an integer); every procedure is a
    function of a small state-and-exception monad over that store, the
    runtime allocator and a trace of the calls made to the host. *)

From Stdlib Require Import ZArith List.
From stdpp Require Import base option list gmap strings pretty.

Set Default Proof Using "Type".

(** ** Data model *)

(** A [torch.device], by its printed name (["cpu"], ["cuda:0"]). *)
Definition device := string.

(** A [torch.nn.Module] as far as this code sees it: where its
    parameters reside, and how many bytes they take. *)
Record nn_module := {
  on_device : device;
  param_bytes : N
}.

(** [module.to(dev)]: the parameters change residency, nothing else. *)
Definition to_device (dev : device) (m : nn_module) : nn_module :=
  {| on_device := dev; param_bytes := param_bytes m |}.

(** [base_model.diffusion_model]: the attributes the code reads. *)
Record WanModel := {
  blocks : list nn_module;
  text_embedding : nn_module;
  img_emb : nn_module
}.

(** The class of [model_patcher.model]; [isinstance(_, WAN21)] holds for
    [WAN21] and for its subclasses. *)
Inductive model_class :=
| WAN21
| WAN21_subclass (name : string)
| other_class (name : string).

Definition isinstance_WAN21 (c : model_class) : bool :=
  match c with
  | WAN21 | WAN21_subclass _ => true
  | other_class _ => false
  end.

Record BaseModel := {
  class_of : model_class;
  diffusion_model : WanModel
}.

(** The sub-modules that [swap_blocks_after_load] relocates. *)
Inductive submodule :=
| Block (b : nat)
| TextEmbedding
| ImgEmb.

Definition relocate (sub : submodule) (dev : device) (bm : BaseModel) : BaseModel :=
  let u := diffusion_model bm in
  {| class_of := class_of bm;
     diffusion_model :=
       match sub with
       | Block b =>
           {| blocks := alter (to_device dev) b (blocks u);
              text_embedding := text_embedding u;
              img_emb := img_emb u |}
       | TextEmbedding =>
           {| blocks := blocks u;
              text_embedding := to_device dev (text_embedding u);
              img_emb := img_emb u |}
       | ImgEmb =>
           {| blocks := blocks u;
              text_embedding := text_embedding u;
              img_emb := to_device dev (img_emb u) |}
       end |}.

(** The closures that end up in a callback table, with the variables they
    capture.  [foreign_cb] stands for a callback of some other registrant. *)
Inductive callback :=
| cleanup_after_sampling_cb (instance_id : Z)
| swap_blocks_after_load_cb (instance_id blocks_to_swap : Z)
    (offload_txt_emb offload_img_emb use_non_blocking : bool)
| foreign_cb (name : string).

(** [CallbacksMP]: the hook points are string constants. *)
Module CallbacksMP.
Definition ON_LOAD : string := "on_load".
Definition ON_CLEANUP : string := "on_cleanup".
End CallbacksMP.

(** A [ModelPatcher]: a handle on a base model that is shared with its
    clones ([model] is a reference), the two devices, and the callback
    table [call_type -> key -> list of callbacks]. *)
Record ModelPatcher := {
  model : Z;
  load_device : device;
  offload_device : device;
  callbacks : gmap string (gmap string (list callback))
}.

(** The objects the host owns.  [patch_layer] is the state of the
    weight-patching mechanism (patches, backups, parameter values),
    opaque to this code. *)
Record heap (PL : Type) := {
  patchers : gmap Z ModelPatcher;
  models : gmap Z BaseModel;
  patch_layer : PL
}.
Arguments patchers {PL} _.
Arguments models {PL} _.
Arguments patch_layer {PL} _.

Inductive level := INFO | WARNING.

(** What a run does to the outside, in order. *)
Inductive event :=
| Log (lvl : level) (msg : string)
| ModuleTo (base_model : Z) (sub : submodule) (dev : device) (non_blocking : bool)
| UnpatchModel (model_patcher : Z) (device_to : device) (unpatch_weights : bool)
| SoftEmptyCache
| GcCollect
| Clone (model_patcher clone : Z)
| AddCallbackWithKey (model_patcher : Z) (call_type key : string).

Record world (PL AL : Type) := {
  mem : heap PL;
  allocator : AL;
  trace : list event
}.
Arguments mem {PL AL} _.
Arguments allocator {PL AL} _.
Arguments trace {PL AL} _.

(** A Python exception, by its message. *)
Inductive exn := Exception (msg : string).

(** How a call ends.  [Stuck] is not a Python behaviour: it marks a run
    on a store in which an identity names no object. *)
Inductive outcome (A : Type) :=
| Ok (a : A)
| Raise (e : exn)
| Stuck.
Arguments Ok {A} _.
Arguments Raise {A} _.
Arguments Stuck {A}.

(** The collaborators whose code is not part of the node: the patcher's
    [unpatch_model] and the runtime's memory-reclamation pair.  Each may
    raise; whatever it did to its state before raising stays done.
    [unpatch_model] is a method of the patcher [self]: it reads the
    patcher and writes the base models and the patch layer.  The
    reclamation pair works on the allocator. *)
Record host_ops (PL AL : Type) := {
  unpatch_model : Z -> ModelPatcher -> device -> bool ->
                  gmap Z BaseModel -> PL -> outcome unit * (gmap Z BaseModel * PL);
  soft_empty_cache : AL -> outcome unit * AL;
  gc_collect : AL -> outcome unit * AL
}.
Arguments unpatch_model {PL AL} _.
Arguments soft_empty_cache {PL AL} _.
Arguments gc_collect {PL AL} _.

(** [str(n)] of a Python [int]. *)
Definition str_int (n : Z) : string := pretty n.

(** ** The monad of procedures *)

Section Procedures.
Context {PL AL : Type} (host : host_ops PL AL).

Definition M (A : Type) : Type := world PL AL -> outcome A * world PL AL.

Definition ret {A} (a : A) : M A := fun w => (Ok a, w).

Definition bind {A B} (m : M A) (k : A -> M B) : M B :=
  fun w =>
    match m w with
    | (Ok a, w') => k a w'
    | (Raise e, w') => (Raise e, w')
    | (Stuck, w') => (Stuck, w')
    end.

#[export] Instance M_ret : MRet M := @ret.
#[export] Instance M_bind : MBind M := fun A B k m => bind m k.

Definition set_mem (hp : heap PL) (w : world PL AL) : world PL AL :=
  {| mem := hp; allocator := allocator w; trace := trace w |}.

Definition set_allocator (a : AL) (w : world PL AL) : world PL AL :=
  {| mem := mem w; allocator := a; trace := trace w |}.

Definition set_patchers (ps : gmap Z ModelPatcher) (hp : heap PL) : heap PL :=
  {| patchers := ps; models := models hp; patch_layer := patch_layer hp |}.

Definition set_models (ms : gmap Z BaseModel) (hp : heap PL) : heap PL :=
  {| patchers := patchers hp; models := ms; patch_layer := patch_layer hp |}.

(** The world after the events [evs] were appended to its trace. *)
Definition logged (evs : list event) (w : world PL AL) : world PL AL :=
  {| mem := mem w; allocator := allocator w; trace := trace w ++ evs |}.

Definition emit (e : event) : M unit := fun w => (Ok tt, logged [e] w).

Definition logging_info (msg : string) : M unit := emit (Log INFO msg).
Definition logging_warning (msg : string) : M unit := emit (Log WARNING msg).

(** Reading an attribute of the patcher [h]. *)
Definition get_patcher (h : Z) : M ModelPatcher :=
  fun w =>
    match patchers (mem w) !! h with
    | Some p => (Ok p, w)
    | None => (Stuck, w)
    end.

Definition get_model (m : Z) : M BaseModel :=
  fun w =>
    match models (mem w) !! m with
    | Some bm => (Ok bm, w)
    | None => (Stuck, w)
    end.

(** The store after the sub-module [sub] of the base model [m] moved. *)
Definition store_relocate (m : Z) (sub : submodule) (dev : device) : M unit :=
  fun w =>
    match models (mem w) !! m with
    | Some bm =>
        (Ok tt, set_mem (set_models (<[m := relocate sub dev bm]> (models (mem w))) (mem w)) w)
    | None => (Stuck, w)
    end.

(** [sub.to(dev, non_blocking=nb)] on a sub-module of the base model [m].
    The transfer primitive itself is the runtime's; here it relocates. *)
Definition module_to (m : Z) (sub : submodule) (dev : device) (nb : bool) : M unit :=
  emit (ModuleTo m sub dev nb) ;;
  store_relocate m sub dev.

(** The host's operations, run on their part of the world. *)
Definition host_unpatch_model (h : Z) (device_to : device) (unpatch_weights : bool) : M unit :=
  fun w =>
    match patchers (mem w) !! h with
    | Some self =>
        let '(r, (ms, pl)) :=
          unpatch_model host h self device_to unpatch_weights
            (models (mem w)) (patch_layer (mem w)) in
        (r, set_mem {| patchers := patchers (mem w); models := ms; patch_layer := pl |} w)
    | None => (Stuck, w)
    end.

Definition host_reclaim (op : AL -> outcome unit * AL) : M unit :=
  fun w =>
    let '(r, a) := op (allocator w) in
    (r, set_allocator a w).

Definition call_unpatch_model (h : Z) (device_to : device) (unpatch_weights : bool) : M unit :=
  emit (UnpatchModel h device_to unpatch_weights) ;;
  host_unpatch_model h device_to unpatch_weights.

Definition call_soft_empty_cache : M unit :=
  emit SoftEmptyCache ;;
  host_reclaim (soft_empty_cache host).

Definition call_gc_collect : M unit :=
  emit GcCollect ;;
  host_reclaim (gc_collect host).

(** [for x in xs: body(x)] *)
Fixpoint for_each {A} (xs : list A) (body : A -> M unit) : M unit :=
  match xs with
  | [] => ret tt
  | x :: xs' => body x ;; for_each xs' body
  end.

(** [enumerate(xs)] *)
Definition enumerate {A} (xs : list A) : list (nat * A) := imap pair xs.

(** ** The two callbacks *)

(** [cleanup_after_sampling], closed over [instance_id]. *)
Definition cleanup_after_sampling (instance_id : Z) (model_patcher : Z) : M unit :=
  logging_info ("-[ CLEANUP_AFTER_SAMPLING CALLBACK (" +:+ str_int instance_id
                +:+ ") START | Patcher ID: " +:+ str_int model_patcher +:+ " ]-") ;;
  p ← get_patcher model_patcher;
  call_unpatch_model model_patcher (offload_device p) true ;;
  call_soft_empty_cache ;;
  call_gc_collect ;;
  logging_info ("-[ CLEANUP_AFTER_SAMPLING CALLBACK (" +:+ str_int instance_id +:+ ") END ]-").

(** [swap_blocks_after_load], closed over [instance_id], [blocks_to_swap],
    [offload_txt_emb], [offload_img_emb] and [use_non_blocking].  The
    progress bar of [tqdm] writes to the terminal only and is left out. *)
Definition swap_blocks_after_load
    (instance_id blocks_to_swap : Z)
    (offload_txt_emb offload_img_emb use_non_blocking : bool)
    (model_patcher : Z) (device_to : device) (lowvram_model_memory : Z)
    (force_patch_weights full_load : bool) : M unit :=
  logging_info ("-[ SWAP_BLOCKS_AFTER_LOAD CALLBACK (" +:+ str_int instance_id
                +:+ ") START | Patcher ID: " +:+ str_int model_patcher +:+ " ]-") ;;
  p ← get_patcher model_patcher;
  let base_model := model p in
  let main_device := load_device p in
  let offload_device := offload_device p in
  bm ← get_model base_model;
  (if isinstance_WAN21 (class_of bm) then
     let unet := diffusion_model bm in
     logging_info ("  - Swapping " +:+ str_int blocks_to_swap +:+ " blocks in WAN21 UNet.") ;;
     for_each (enumerate (blocks unet)) (fun '(b, block) =>
       let target_dev :=
         if (Z.of_nat b >? blocks_to_swap)%Z then main_device else offload_device in
       module_to base_model (Block b) target_dev false) ;;
     (if offload_txt_emb then
        logging_info ("  - Offloading text_embedding to " +:+ offload_device) ;;
        module_to base_model TextEmbedding offload_device use_non_blocking
      else ret tt) ;;
     (if offload_img_emb then
        logging_info ("  - Offloading img_emb to " +:+ offload_device) ;;
        module_to base_model ImgEmb offload_device use_non_blocking
      else ret tt)
   else
     logging_warning "  - Model is not a WAN21 instance, block swapping skipped.") ;;
  call_soft_empty_cache ;;
  call_gc_collect ;;
  logging_info ("-[ SWAP_BLOCKS_AFTER_LOAD CALLBACK (" +:+ str_int instance_id +:+ ") END ]-").

(** ** The patcher's interface used by [set_callback] *)

(** The store after [p] was placed at a new identity. *)
Definition allocate_patcher (p : ModelPatcher) : M Z :=
  fun w =>
    let h' := fresh (dom (patchers (mem w))) in
    (Ok h', set_mem (set_patchers (<[h' := p]> (patchers (mem w))) (mem w)) w).

(** [model.clone()]: a new patcher object over the same base model, with
    a callback table of its own that starts as a copy. *)
Definition clone (h : Z) : M Z :=
  p ← get_patcher h;
  h' ← allocate_patcher p;
  emit (Clone h h') ;;
  ret h'.

(** [callbacks.setdefault(call_type, {}).setdefault(key, []).append(callback)] *)
Definition register (call_type key : string) (cb : callback) (p : ModelPatcher) : ModelPatcher :=
  let by_key := default ∅ (callbacks p !! call_type) in
  let registered := default [] (by_key !! key) in
  {| model := model p;
     load_device := load_device p;
     offload_device := offload_device p;
     callbacks := <[call_type := <[key := registered ++ [cb]]> by_key]> (callbacks p) |}.

Definition store_patcher (h : Z) (p : ModelPatcher) : M unit :=
  fun w => (Ok tt, set_mem (set_patchers (<[h := p]> (patchers (mem w))) (mem w)) w).

Definition add_callback_with_key (h : Z) (call_type key : string) (cb : callback) : M unit :=
  emit (AddCallbackWithKey h call_type key) ;;
  p ← get_patcher h;
  store_patcher h (register call_type key cb p).

(** ** [WanVideoBlockSwap.set_callback] *)

Definition swap_key (instance_id : Z) : string := "wan_block_swap_" +:+ str_int instance_id.
Definition cleanup_key (instance_id : Z) : string := "wan_cleanup_" +:+ str_int instance_id.

(** [self] is the node instance, known here by [id(self)]; the result is
    the one component of the returned tuple. *)
Definition set_callback (self : Z) (model : Z) (blocks_to_swap : Z)
    (offload_txt_emb offload_img_emb use_non_blocking : bool) : M Z :=
  let instance_id := self in
  logging_info ("WanVideoBlockSwap: Initializing for Patcher ID: " +:+ str_int model) ;;
  model ← clone model;
  add_callback_with_key model CallbacksMP.ON_LOAD (swap_key instance_id)
    (swap_blocks_after_load_cb instance_id blocks_to_swap
       offload_txt_emb offload_img_emb use_non_blocking) ;;
  add_callback_with_key model CallbacksMP.ON_CLEANUP (cleanup_key instance_id)
    (cleanup_after_sampling_cb instance_id) ;;
  ret model.

(** What the host runs when it fires a registered closure. *)
Definition fire_on_load (cb : callback) (model_patcher : Z) (device_to : device)
    (lowvram_model_memory : Z) (force_patch_weights full_load : bool) : M unit :=
  match cb with
  | swap_blocks_after_load_cb i n t e nb =>
      swap_blocks_after_load i n t e nb model_patcher device_to
        lowvram_model_memory force_patch_weights full_load
  | _ => ret tt
  end.

Definition fire_on_cleanup (cb : callback) (model_patcher : Z) : M unit :=
  match cb with
  | cleanup_after_sampling_cb i => cleanup_after_sampling i model_patcher
  | _ => ret tt
  end.

End Procedures.

(** ** Observations and contracts *)

Section Observations.
Context {PL AL : Type}.

(** The device on which a sub-module of the base model [m] resides. *)
Definition residency (w : world PL AL) (m : Z) (sub : submodule) : option device :=
  bm ← models (mem w) !! m;
  match sub with
  | Block b => on_device <$> blocks (diffusion_model bm) !! b
  | TextEmbedding => Some (on_device (text_embedding (diffusion_model bm)))
  | ImgEmb => Some (on_device (img_emb (diffusion_model bm)))
  end.

(** The closures registered on a patcher under a hook point and a key. *)
Definition callbacks_at (p : ModelPatcher) (call_type key : string) : list callback :=
  default [] (callbacks p !! call_type ≫= (.!! key)).

Definition is_reclaim (e : event) : bool :=
  match e with
  | SoftEmptyCache | GcCollect => true
  | _ => false
  end.

Definition is_transfer (e : event) : bool :=
  match e with
  | ModuleTo _ _ _ _ | UnpatchModel _ _ _ => true
  | _ => false
  end.

Definition never_raises {S : Type} (op : S -> outcome unit * S) : Prop :=
  ∀ a, (op a).1 = Ok tt.

(** The runtime's contract for the memory-reclamation pair. *)
Definition reclamation_safe (host : host_ops PL AL) : Prop :=
  never_raises (soft_empty_cache host) ∧ never_raises (gc_collect host).

(** The patcher's contract for [unpatch_model]: unpatching a model that
    was just unpatched succeeds and changes nothing. *)
Definition unpatch_settles (host : host_ops PL AL) : Prop :=
  ∀ h p dev ms pl ms' pl',
    unpatch_model host h p dev true ms pl = (Ok tt, (ms', pl')) →
    unpatch_model host h p dev true ms' pl' = (Ok tt, (ms', pl')).

(** The device a block is sent to. *)
Definition target_dev (p : ModelPatcher) (cutoff : Z) (b : nat) : device :=
  if (Z.of_nat b >? cutoff)%Z then load_device p else offload_device p.

Definition with_blocks (bs : list nn_module) (bm : BaseModel) : BaseModel :=
  {| class_of := class_of bm;
     diffusion_model :=
       {| blocks := bs;
          text_embedding := text_embedding (diffusion_model bm);
          img_emb := img_emb (diffusion_model bm) |} |}.

(** The blocks after the loop went over the indices [k], ..., [k + n - 1]. *)
Definition place_from (p : ModelPatcher) (cutoff : Z) (k n : nat)
    (bs : list nn_module) : list nn_module :=
  foldl (fun acc b => alter (to_device (target_dev p cutoff b)) b acc) bs (seq k n).

Definition block_events (p : ModelPatcher) (cutoff : Z) (k n : nat) : list event :=
  map (λ b, ModuleTo (model p) (Block b) (target_dev p cutoff b) false) (seq k n).

Definition aux_events (flag : bool) (p : ModelPatcher) (sub : submodule)
    (name : string) (nb : bool) : list event :=
  if flag then
    [Log INFO ("  - Offloading " +:+ name +:+ " to " +:+ offload_device p);
     ModuleTo (model p) sub (offload_device p) nb]
  else [].

Definition aux_placed (flag : bool) (p : ModelPatcher) (sub : submodule)
    (bm : BaseModel) : BaseModel :=
  if flag then relocate sub (offload_device p) bm else bm.

Definition swap_start (i h : Z) : event :=
  Log INFO ("-[ SWAP_BLOCKS_AFTER_LOAD CALLBACK (" +:+ str_int i
            +:+ ") START | Patcher ID: " +:+ str_int h +:+ " ]-").
Definition swap_end (i : Z) : event :=
  Log INFO ("-[ SWAP_BLOCKS_AFTER_LOAD CALLBACK (" +:+ str_int i +:+ ") END ]-").
Definition cleanup_start (i h : Z) : event :=
  Log INFO ("-[ CLEANUP_AFTER_SAMPLING CALLBACK (" +:+ str_int i
            +:+ ") START | Patcher ID: " +:+ str_int h +:+ " ]-").
Definition cleanup_end (i : Z) : event :=
  Log INFO ("-[ CLEANUP_AFTER_SAMPLING CALLBACK (" +:+ str_int i +:+ ") END ]-").

(** What [swap_blocks_after_load] emits before the reclamation pass on a
    WAN21 model with [n] blocks. *)
Definition swap_events (i cutoff : Z) (t e nb : bool) (h : Z) (p : ModelPatcher)
    (n : nat) : list event :=
  [swap_start i h;
   Log INFO ("  - Swapping " +:+ str_int cutoff +:+ " blocks in WAN21 UNet.")]
  ++ block_events p cutoff 0 n
  ++ aux_events t p TextEmbedding "text_embedding" nb
  ++ aux_events e p ImgEmb "img_emb" nb.

(** The base model when the reclamation pass starts. *)
Definition swap_placed (cutoff : Z) (t e : bool) (p : ModelPatcher) (bm : BaseModel) : BaseModel :=
  let bs := blocks (diffusion_model bm) in
  aux_placed e p ImgEmb
    (aux_placed t p TextEmbedding
       (with_blocks (place_from p cutoff 0 (length bs) bs) bm)).

End Observations.

(** ** A host to run the code on *)

Module Reference.

(** The patch layer: the weights that carry a patch, and whether the
    next unpatch is going to fail. *)
Record patches := {
  patched : list string;
  jammed : bool
}.

Definition move_all (dev : device) (bm : BaseModel) : BaseModel :=
  let u := diffusion_model bm in
  {| class_of := class_of bm;
     diffusion_model :=
       {| blocks := to_device dev <$> blocks u;
          text_embedding := to_device dev (text_embedding u);
          img_emb := to_device dev (img_emb u) |} |}.

Definition unpatch (h : Z) (self : ModelPatcher) (device_to : device)
    (unpatch_weights : bool) (ms : gmap Z BaseModel) (pl : patches)
    : outcome unit * (gmap Z BaseModel * patches) :=
  if jammed pl then (Raise (Exception "unpatch failed"), (ms, pl))
  else if unpatch_weights then
    (Ok tt, (alter (move_all device_to) (model self) ms,
             {| patched := []; jammed := false |}))
  else (Ok tt, (ms, pl)).

(** The allocator: the bytes held in its cache. *)
Definition host : host_ops patches N :=
  {| unpatch_model := unpatch;
     soft_empty_cache := fun _ => (Ok tt, 0%N);
     gc_collect := fun a => (Ok tt, a) |}.

(** A runtime whose cache emptying fails. *)
Definition failing_host : host_ops patches N :=
  {| unpatch_model := unpatch;
     soft_empty_cache := fun a => (Raise (Exception "CUDA error"), a);
     gc_collect := fun a => (Ok tt, a) |}.

Definition on_gpu : nn_module := {| on_device := "cuda:0"; param_bytes := 1024 |}.

Definition net (cls : model_class) (n : nat) : BaseModel :=
  {| class_of := cls;
     diffusion_model :=
       {| blocks := replicate n on_gpu;
          text_embedding := on_gpu;
          img_emb := on_gpu |} |}.

Definition patcher (m : Z) : ModelPatcher :=
  {| model := m; load_device := "cuda:0"; offload_device := "cpu"; callbacks := ∅ |}.

(** Patcher 1 over a WAN21 model of three blocks (object 7), patcher 2
    over a model of another family (object 8). *)
Definition store (jam : bool) : world patches N :=
  {| mem := {| patchers := {[ 1%Z := patcher 7; 2%Z := patcher 8 ]};
               models := {[ 7%Z := net WAN21 3; 8%Z := net (other_class "Flux") 3 ]};
               patch_layer := {| patched := ["blocks.0.weight"]; jammed := jam |} |};
     allocator := 4096%N;
     trace := [] |}.

End Reference.

(** ** A host whose patch layer keeps one backup per patch *)

Module Layered.

(** The value of a weight, and the values it had before each of the
    patches now applied, the most recent first. *)
Record patches := {
  weight : Z;
  backups : list Z
}.

(** Unpatching puts the most recent backup back. *)
Definition unpatch (h : Z) (self : ModelPatcher) (device_to : device)
    (unpatch_weights : bool) (ms : gmap Z BaseModel) (pl : patches)
    : outcome unit * (gmap Z BaseModel * patches) :=
  if unpatch_weights then
    match backups pl with
    | b :: bs => (Ok tt, (ms, {| weight := b; backups := bs |}))
    | [] => (Ok tt, (ms, pl))
    end
  else (Ok tt, (ms, pl)).

Definition host : host_ops patches N :=
  {| unpatch_model := unpatch;
     soft_empty_cache := fun _ => (Ok tt, 0%N);
     gc_collect := fun a => (Ok tt, a) |}.

(** Patcher 1 over a WAN21 model; the weight, 1 at first, was patched to
    2 and then to 3. *)
Definition store : world patches N :=
  {| mem := {| patchers := {[ 1%Z := Reference.patcher 7 ]};
               models := {[ 7%Z := Reference.net WAN21 3 ]};
               patch_layer := {| weight := 3; backups := [2; 1]%Z |} |};
     allocator := 4096%N;
     trace := [] |}.

End Layered.

(** ** The node's declaration *)

Module WanVideoBlockSwap.

(** What [INPUT_TYPES] says of one input. *)
Inductive input_type :=
| MODEL
| INT (default min max step : Z)
| BOOLEAN (default : bool).

(** The dictionary that [INPUT_TYPES] returns, in its order. *)
Definition INPUT_TYPES : list (string * list (string * input_type)) :=
  [("required",
    [("model", MODEL);
     ("blocks_to_swap", INT 20 0 40 1);
     ("offload_img_emb", BOOLEAN false);
     ("offload_txt_emb", BOOLEAN false);
     ("use_non_blocking", BOOLEAN false)])].

Definition RETURN_TYPES : list string := ["MODEL"].
Definition CATEGORY : string := "ComfyUI-wanBlockswap".
Definition FUNCTION : string := "set_callback".

(** [d[key]] on a dictionary kept as a list of items. *)
Fixpoint item {A} (key : string) (d : list (string * A)) : option A :=
  match d with
  | [] => None
  | (k, v) :: d' => if decide (k = key) then Some v else item key d'
  end.

(** The values the declaration admits for an [INT] input. *)
Definition admits (name : string) (n : Z) : Prop :=
  ∃ default min max step,
    (item "required" INPUT_TYPES ≫= item name) = Some (INT default min max step)
    ∧ (min ≤ n ≤ max)%Z.

End WanVideoBlockSwap.

(** ** The patches made to [comfy.model_management] at import *)

Module Compat.

(** An attribute of the module: an object the host put there, or the
    wrapper [lambda model: comfy.model_management.load_models_gpu([model])]. *)
Inductive attr :=
| host_object (qualname : string)
| load_model_gpu_wrapper.

(** The module's namespace and the warnings logged so far. *)
Record importing := {
  namespace : gmap string attr;
  warnings : list event
}.

Definition hasattr (ns : gmap string attr) (name : string) : bool :=
  bool_decide (is_Some (ns !! name)).

Definition getattr (ns : gmap string attr) (name : string) : outcome attr :=
  match ns !! name with
  | Some a => Ok a
  | None =>
      Raise (Exception ("module 'comfy.model_management' has no attribute '"
                        +:+ name +:+ "'"))
  end.

Definition warn (msg : string) (s : importing) : importing :=
  {| namespace := namespace s; warnings := warnings s ++ [Log WARNING msg] |}.

Definition setattr (name : string) (a : attr) (s : importing) : importing :=
  {| namespace := <[name := a]> (namespace s); warnings := warnings s |}.

(** Lines 11-13. *)
Definition patch_load_model_gpu (s : importing) : importing :=
  if negb (hasattr (namespace s) "load_model_gpu") then
    setattr "load_model_gpu" load_model_gpu_wrapper
      (warn "Patching 'comfy.model_management.load_model_gpu' not found. Creating a wrapper for 'load_models_gpu'." s)
  else s.

(** Lines 15-17: the right-hand side is read, and may fail to exist,
    after the warning was logged. *)
Definition patch_cleanup_models_gc (s : importing) : outcome unit * importing :=
  if negb (hasattr (namespace s) "cleanup_models_gc") then
    let s1 := warn "Patching 'comfy.model_management.cleanup_models_gc' not found. Using 'cleanup_models' as a fallback." s in
    match getattr (namespace s1) "cleanup_models" with
    | Ok a => (Ok tt, setattr "cleanup_models_gc" a s1)
    | Raise e => (Raise e, s1)
    | Stuck => (Stuck, s1)
    end
  else (Ok tt, s).

Definition version_compatibility_patches (s : importing) : outcome unit * importing :=
  patch_cleanup_models_gc (patch_load_model_gpu s).

(** An argument passed to a host function: one model, or a list of them. *)
Inductive argument :=
| one (model : Z)
| several (models : list Z).

(** [comfy.model_management.load_model_gpu(model)]: the host object that
    ends up called, with its argument.  The wrapper reads
    [load_models_gpu] off the module when it is called. *)
Definition call_load_model_gpu (ns : gmap string attr) (model : Z)
    : outcome (string * argument) :=
  match getattr ns "load_model_gpu" with
  | Ok (host_object q) => Ok (q, one model)
  | Ok load_model_gpu_wrapper =>
      match getattr ns "load_models_gpu" with
      | Ok (host_object q) => Ok (q, several [model])
      | Ok load_model_gpu_wrapper => Stuck
      | Raise e => Raise e
      | Stuck => Stuck
      end
  | Raise e => Raise e
  | Stuck => Stuck
  end.

(** A host that has neither [load_model_gpu] nor [cleanup_models_gc]. *)
Definition legacy : importing :=
  {| namespace :=
       {[ "load_models_gpu" := host_object "load_models_gpu";
          "cleanup_models" := host_object "cleanup_models" ]};
     warnings := [] |}.

End Compat.

(** ** The block sequence in closed form *)

(** The first [cutoff + 1] blocks on the offload device, the others on
    the load device. *)
Definition split_blocks (p : ModelPatcher) (cutoff : Z) (bs : list nn_module)
    : list nn_module :=
  let k := Z.to_nat (cutoff + 1) in
  (to_device (offload_device p) <$> take k bs)
  ++ (to_device (load_device p) <$> drop k bs).

(** The closures registered by one [set_callback] under a hook and a key. *)
Definition registered_by (self c : Z) (t e nb : bool) (ct k : string) : list callback :=
  if decide (ct = CallbacksMP.ON_LOAD ∧ k = swap_key self)
  then [swap_blocks_after_load_cb self c t e nb]
  else if decide (ct = CallbacksMP.ON_CLEANUP ∧ k = cleanup_key self)
       then [cleanup_after_sampling_cb self]
       else [].

(** ** How the procedures run *)

Section Runs.
Context {PL AL : Type} (host : host_ops PL AL).
Implicit Types (w : world PL AL) (p : ModelPatcher) (bm : BaseModel).

Lemma bind_run {A B} (m : M A) (k : A -> M B) w :
  (m ≫= k) w = match m w with
               | (Ok a, w') => k a w'
               | (Raise e, w') => (Raise e, w')
               | (Stuck, w') => (Stuck, w')
               end.
Proof. reflexivity. Qed.

Lemma emit_bind {B} (e : event) (k : unit -> M B) w :
  (emit e ≫= k) w = k tt (logged [e] w).
Proof. reflexivity. Qed.

Lemma logged_logged (a b : list event) w :
  logged b (logged a w) = logged (a ++ b) w.
Proof. unfold logged. simpl. by rewrite app_assoc. Qed.

Lemma logged_nil w : logged [] w = w.
Proof. destruct w. unfold logged. simpl. by rewrite app_nil_r. Qed.

Lemma with_blocks_id bm : with_blocks (blocks (diffusion_model bm)) bm = bm.
Proof. by destruct bm as [c []]. Qed.

(** *** The loop over the blocks *)

Lemma swap_loop_run p cutoff m (l : list nn_module) : ∀ k w bm,
  models (mem w) !! m = Some bm →
  for_each (imap (λ i x, ((k + i)%nat, x)) l)
    (λ '(b, block), module_to m (Block b) (target_dev p cutoff b) false) w
  = (Ok tt,
     {| mem := set_models
                 (<[m := with_blocks (place_from p cutoff k (length l) (blocks (diffusion_model bm))) bm]>
                    (models (mem w))) (mem w);
        allocator := allocator w;
        trace := trace w ++ map (λ b, ModuleTo m (Block b) (target_dev p cutoff b) false) (seq k (length l)) |}).
Proof.
  induction l as [|x l IH]; intros k w bm Hm.
  - simpl. unfold ret, place_from. simpl. rewrite with_blocks_id, (insert_id _ _ _ Hm).
    rewrite app_nil_r. destruct w as [[] ? ?]. reflexivity.
  - simpl. rewrite bind_run. unfold module_to at 1. rewrite bind_run.
    unfold emit at 1. unfold store_relocate at 1. simpl. rewrite Hm.
    erewrite (imap_ext _ (λ i x, ((S k + i)%nat, x))); last by (intros; simpl; f_equal; lia).
    erewrite IH; last by (simpl; apply lookup_insert_eq).
    simpl. rewrite insert_insert_eq. rewrite <- app_assoc. simpl.
    rewrite Nat.add_0_r. reflexivity.
Qed.

Lemma place_from_lookup p cutoff n : ∀ k (bs : list nn_module) i,
  place_from p cutoff k n bs !! i
  = if decide (k ≤ i < k + n)%nat
    then to_device (target_dev p cutoff i) <$> bs !! i
    else bs !! i.
Proof.
  unfold place_from. induction n as [|n IH]; intros k bs i; simpl.
  - case_decide; [lia | done].
  - rewrite IH. destruct (decide (i = k)) as [->|Hne].
    + rewrite list_lookup_alter. repeat case_decide; try lia. done.
    + rewrite list_lookup_alter_ne by done. repeat case_decide; try lia; done.
Qed.

Lemma place_from_length p cutoff n : ∀ k (bs : list nn_module),
  length (place_from p cutoff k n bs) = length bs.
Proof.
  unfold place_from. induction n as [|n IH]; intros k bs; simpl; [done|].
  by rewrite IH, length_alter.
Qed.

Lemma target_dev_above p cutoff b :
  (cutoff < Z.of_nat b)%Z → target_dev p cutoff b = load_device p.
Proof. unfold target_dev. intros H. destruct (Z.gtb_spec (Z.of_nat b) cutoff); [done | lia]. Qed.

Lemma target_dev_upto p cutoff b :
  (Z.of_nat b ≤ cutoff)%Z → target_dev p cutoff b = offload_device p.
Proof. unfold target_dev. intros H. destruct (Z.gtb_spec (Z.of_nat b) cutoff); [lia | done]. Qed.

(** *** The reclamation pass and the closing log line *)

Lemma call_soft_empty_cache_run w :
  call_soft_empty_cache host w
  = (let '(r, a) := soft_empty_cache host (allocator w) in
     (r, {| mem := mem w; allocator := a; trace := trace w ++ [SoftEmptyCache] |})).
Proof. reflexivity. Qed.

Lemma call_gc_collect_run w :
  call_gc_collect host w
  = (let '(r, a) := gc_collect host (allocator w) in
     (r, {| mem := mem w; allocator := a; trace := trace w ++ [GcCollect] |})).
Proof. reflexivity. Qed.

(** With a runtime that keeps its contract the pass goes through. *)
Lemma tail_run_safe ev w :
  reclamation_safe host →
  ∃ a, (call_soft_empty_cache host ;; call_gc_collect host ;; emit ev) w
       = (Ok tt, {| mem := mem w; allocator := a;
                    trace := trace w ++ [SoftEmptyCache; GcCollect; ev] |}).
Proof.
  intros [Hs Hg].
  rewrite bind_run, call_soft_empty_cache_run.
  specialize (Hs (allocator w)).
  destruct (soft_empty_cache host (allocator w)) as [r1 a1]. simpl in Hs. subst r1.
  rewrite bind_run, call_gc_collect_run. cbn [allocator].
  specialize (Hg a1).
  destruct (gc_collect host a1) as [r2 a2]. simpl in Hg. subst r2.
  unfold emit, logged. cbn [mem allocator trace].
  rewrite <- !app_assoc. simpl. by exists a2.
Qed.

(** However the pass ends, it leaves the store alone and emits nothing
    but its own events. *)
Lemma tail_run_frame ev w :
  let r := (call_soft_empty_cache host ;; call_gc_collect host ;; emit ev) w in
  mem r.2 = mem w ∧
  ∃ evs, trace r.2 = trace w ++ evs
         ∧ Forall (λ e, e ∈ [SoftEmptyCache; GcCollect; ev]) evs.
Proof.
  cbv zeta. rewrite bind_run, call_soft_empty_cache_run.
  destruct (soft_empty_cache host (allocator w)) as [r1 a1].
  destruct r1 as [[]| |].
  - rewrite bind_run, call_gc_collect_run. cbn [allocator].
    destruct (gc_collect host a1) as [r2 a2].
    destruct r2 as [[]| |]; unfold emit, logged; cbn [mem allocator trace fst snd];
      (split; [done|]); rewrite <- ?app_assoc; eexists; (split; [done|]);
      repeat constructor; set_solver.
  - cbn [mem trace fst snd]. split; [done|]. eexists; split; [done|].
    repeat constructor; set_solver.
  - cbn [mem trace fst snd]. split; [done|]. eexists; split; [done|].
    repeat constructor; set_solver.
Qed.

(** The pass has no handler: what the cache emptying raises leaves it. *)
Lemma tail_run_raises ev w e :
  (soft_empty_cache host (allocator w)).1 = Raise e →
  ((call_soft_empty_cache host ;; call_gc_collect host ;; emit ev) w).1 = Raise e.
Proof.
  intros H. rewrite bind_run, call_soft_empty_cache_run.
  destruct (soft_empty_cache host (allocator w)) as [r1 a1]. simpl in H. by subst r1.
Qed.

(** *** [swap_blocks_after_load] up to its reclamation pass *)

Lemma swap_run_other i c t e nb h d l f fl w p bm :
  patchers (mem w) !! h = Some p →
  models (mem w) !! model p = Some bm →
  isinstance_WAN21 (class_of bm) = false →
  swap_blocks_after_load host i c t e nb h d l f fl w
  = (call_soft_empty_cache host ;; call_gc_collect host ;; emit (swap_end i))
      (logged [swap_start i h;
               Log WARNING "  - Model is not a WAN21 instance, block swapping skipped."] w).
Proof.
  intros Hp Hm Hc. unfold swap_blocks_after_load, logging_info, logging_warning.
  rewrite emit_bind, bind_run. unfold get_patcher at 1. cbn [mem logged]. rewrite Hp.
  rewrite bind_run. unfold get_model at 1. cbn [mem logged]. rewrite Hm.
  rewrite bind_run, Hc. unfold emit at 1. rewrite logged_logged. reflexivity.
Qed.

Lemma aux_run (flag : bool) p sub (name : string) nb w bm :
  models (mem w) !! model p = Some bm →
  (if flag then
     emit (PL:=PL) (AL:=AL)
       (Log INFO ("  - Offloading " +:+ name +:+ " to " +:+ offload_device p)) ;;
     module_to (model p) sub (offload_device p) nb
   else ret tt) w
  = (Ok tt,
     {| mem := set_models (<[model p := aux_placed flag p sub bm]> (models (mem w))) (mem w);
        allocator := allocator w;
        trace := trace w ++ aux_events flag p sub name nb |}).
Proof.
  intros Hm. destruct flag; unfold aux_placed, aux_events.
  - rewrite emit_bind. unfold module_to. rewrite emit_bind, logged_logged.
    unfold store_relocate. cbn [mem logged]. rewrite Hm. reflexivity.
  - unfold ret. rewrite (insert_id _ _ _ Hm), app_nil_r. by destruct w as [[] ? ?].
Qed.

Lemma swap_run_WAN21 i c t e nb h d l f fl w p bm :
  patchers (mem w) !! h = Some p →
  models (mem w) !! model p = Some bm →
  isinstance_WAN21 (class_of bm) = true →
  swap_blocks_after_load host i c t e nb h d l f fl w
  = (call_soft_empty_cache host ;; call_gc_collect host ;; emit (swap_end i))
      {| mem := set_models (<[model p := swap_placed c t e p bm]> (models (mem w))) (mem w);
         allocator := allocator w;
         trace := trace w ++ swap_events i c t e nb h p (length (blocks (diffusion_model bm))) |}.
Proof.
  intros Hp Hm Hc. unfold swap_blocks_after_load, logging_info.
  rewrite emit_bind, bind_run. unfold get_patcher at 1. cbn [mem logged]. rewrite Hp.
  rewrite bind_run. unfold get_model at 1. cbn [mem logged]. rewrite Hm.
  rewrite bind_run, Hc. cbv zeta.
  rewrite emit_bind, logged_logged, bind_run.
  unfold enumerate.
  pose proof (swap_loop_run p c (model p) (blocks (diffusion_model bm)) 0
                (logged [swap_start i h;
                         Log INFO ("  - Swapping " +:+ str_int c +:+ " blocks in WAN21 UNet.")] w)
                bm Hm) as Hloop.
  lazymatch type of Hloop with
  | _ = ?rhs =>
      lazymatch goal with
      | |- context [for_each ?xs ?body ?w0] =>
          replace (for_each xs body w0) with rhs by (symmetry; exact Hloop)
      end
  end.
  clear Hloop.
  rewrite bind_run.
  erewrite (aux_run t p TextEmbedding "text_embedding" nb);
    last by (cbn [mem models set_models]; apply lookup_insert_eq).
  erewrite (aux_run e p ImgEmb "img_emb" nb);
    last by (cbn [mem models set_models]; apply lookup_insert_eq).
  cbn [mem allocator trace logged set_models models patchers patch_layer].
  rewrite !insert_insert_eq. unfold swap_events, swap_placed, block_events, target_dev, swap_start.
  rewrite <- !app_assoc. reflexivity.
Qed.

(** *** [cleanup_after_sampling] up to its reclamation pass *)

Lemma cleanup_run i h w p :
  patchers (mem w) !! h = Some p →
  cleanup_after_sampling host i h w
  = (let '(r, (ms, pl)) :=
       unpatch_model host h p (offload_device p) true (models (mem w)) (patch_layer (mem w)) in
     let w1 :=
       {| mem := {| patchers := patchers (mem w); models := ms; patch_layer := pl |};
          allocator := allocator w;
          trace := trace w ++ [cleanup_start i h; UnpatchModel h (offload_device p) true] |} in
     match r with
     | Ok _ => (call_soft_empty_cache host ;; call_gc_collect host ;; emit (cleanup_end i)) w1
     | Raise e => (Raise e, w1)
     | Stuck => (Stuck, w1)
     end).
Proof.
  intros Hp. unfold cleanup_after_sampling, logging_info.
  rewrite emit_bind, bind_run. unfold get_patcher at 1. cbn [mem logged]. rewrite Hp.
  rewrite bind_run. unfold call_unpatch_model. rewrite emit_bind, logged_logged.
  unfold host_unpatch_model. cbn [mem logged]. rewrite Hp.
  destruct (unpatch_model host h p (offload_device p) true (models (mem w))
              (patch_layer (mem w))) as [r [ms pl]].
  destruct r as [[]| |]; reflexivity.
Qed.

(** *** Registration *)

Lemma callbacks_at_register ct k cb p ct' k' :
  callbacks_at (register ct k cb p) ct' k'
  = callbacks_at p ct' k' ++ (if decide (ct = ct' ∧ k = k') then [cb] else []).
Proof.
  unfold callbacks_at, register. cbn [callbacks].
  destruct (decide (ct = ct')) as [<-|Hct].
  - rewrite lookup_insert_eq. cbn [mbind option_bind].
    destruct (decide (k = k')) as [<-|Hk].
    + rewrite lookup_insert_eq. rewrite decide_True by done.
      destruct (callbacks p !! ct) as [tbl|]; simpl; [|by rewrite lookup_empty].
      done.
    + rewrite lookup_insert_ne by done. rewrite decide_False by tauto.
      rewrite app_nil_r.
      destruct (callbacks p !! ct) as [tbl|]; simpl; [done | by rewrite lookup_empty].
  - rewrite lookup_insert_ne by done. rewrite decide_False by tauto.
    by rewrite app_nil_r.
Qed.

Lemma swap_key_inj i j : swap_key i = swap_key j → i = j.
Proof.
  unfold swap_key, str_int. intros H.
  apply (inj (String.append "wan_block_swap_")) in H. by apply (inj pretty) in H.
Qed.

Lemma cleanup_key_inj i j : cleanup_key i = cleanup_key j → i = j.
Proof.
  unfold cleanup_key, str_int. intros H.
  apply (inj (String.append "wan_cleanup_")) in H. by apply (inj pretty) in H.
Qed.

Lemma swap_key_not_cleanup_key i j : swap_key i ≠ cleanup_key j.
Proof. unfold swap_key, cleanup_key. intros H. cbn [String.append] in H. discriminate H. Qed.

Lemma clone_run h w p :
  patchers (mem w) !! h = Some p →
  let h' := fresh (dom (patchers (mem w))) in
  clone h w
  = (Ok h',
     {| mem := set_patchers (<[h' := p]> (patchers (mem w))) (mem w);
        allocator := allocator w;
        trace := trace w ++ [Clone h h'] |}).
Proof.
  intros Hp h'. unfold clone. rewrite bind_run. unfold get_patcher. rewrite Hp.
  reflexivity.
Qed.

Lemma add_callback_with_key_run h ct k cb w p :
  patchers (mem w) !! h = Some p →
  add_callback_with_key h ct k cb w
  = (Ok tt,
     {| mem := set_patchers (<[h := register ct k cb p]> (patchers (mem w))) (mem w);
        allocator := allocator w;
        trace := trace w ++ [AddCallbackWithKey h ct k] |}).
Proof.
  intros Hp. unfold add_callback_with_key. rewrite emit_bind, bind_run.
  unfold get_patcher. cbn [mem logged]. rewrite Hp. reflexivity.
Qed.

Lemma set_callback_run self m c t e nb w p :
  patchers (mem w) !! m = Some p →
  let h' := fresh (dom (patchers (mem w))) in
  set_callback self m c t e nb w
  = (Ok h',
     {| mem := set_patchers
                 (<[h' := register CallbacksMP.ON_CLEANUP (cleanup_key self)
                            (cleanup_after_sampling_cb self)
                            (register CallbacksMP.ON_LOAD (swap_key self)
                               (swap_blocks_after_load_cb self c t e nb) p)]>
                    (patchers (mem w))) (mem w);
        allocator := allocator w;
        trace := trace w ++
          [Log INFO ("WanVideoBlockSwap: Initializing for Patcher ID: " +:+ str_int m);
           Clone m h';
           AddCallbackWithKey h' CallbacksMP.ON_LOAD (swap_key self);
           AddCallbackWithKey h' CallbacksMP.ON_CLEANUP (cleanup_key self)] |}).
Proof.
  intros Hp h'. unfold set_callback, logging_info.
  rewrite emit_bind, bind_run.
  rewrite (clone_run m _ p) by exact Hp.
  cbn [mem logged]. fold h'.
  rewrite bind_run.
  erewrite add_callback_with_key_run; last by (cbn [mem patchers set_patchers]; apply lookup_insert_eq).
  rewrite bind_run.
  erewrite add_callback_with_key_run; last by (cbn [mem patchers set_patchers]; apply lookup_insert_eq).
  unfold ret, set_patchers, logged. cbn [mem patchers models patch_layer allocator trace].
  rewrite !insert_insert_eq, <- !app_assoc. reflexivity.
Qed.

End Runs.

(** ** After [swap_blocks_after_load] *)

Section Residency.
Context {PL AL : Type} (host : host_ops PL AL).
Implicit Types (w : world PL AL) (p : ModelPatcher) (bm : BaseModel).

Lemma swap_placed_blocks c t e p bm :
  blocks (diffusion_model (swap_placed c t e p bm))
  = place_from p c 0 (length (blocks (diffusion_model bm))) (blocks (diffusion_model bm)).
Proof. unfold swap_placed, aux_placed. by destruct t, e. Qed.

Lemma swap_placed_text_embedding c t e p bm :
  on_device (text_embedding (diffusion_model (swap_placed c t e p bm)))
  = if t then offload_device p else on_device (text_embedding (diffusion_model bm)).
Proof. unfold swap_placed, aux_placed. by destruct t, e. Qed.

Lemma swap_placed_img_emb c t e p bm :
  on_device (img_emb (diffusion_model (swap_placed c t e p bm)))
  = if e then offload_device p else on_device (img_emb (diffusion_model bm)).
Proof. unfold swap_placed, aux_placed. by destruct t, e. Qed.

(** The store after a run on a WAN21 model, however the reclamation
    pass ended. *)
Lemma swap_WAN21_mem i c t e nb h d l f fl w p bm :
  patchers (mem w) !! h = Some p →
  models (mem w) !! model p = Some bm →
  isinstance_WAN21 (class_of bm) = true →
  mem (swap_blocks_after_load host i c t e nb h d l f fl w).2
  = set_models (<[model p := swap_placed c t e p bm]> (models (mem w))) (mem w).
Proof.
  intros Hp Hm Hc. rewrite (swap_run_WAN21 host i c t e nb h d l f fl w p bm Hp Hm Hc).
  by destruct (tail_run_frame host (swap_end i)
    {| mem := set_models (<[model p := swap_placed c t e p bm]> (models (mem w))) (mem w);
       allocator := allocator w;
       trace := trace w ++ swap_events i c t e nb h p (length (blocks (diffusion_model bm))) |})
    as [-> _].
Qed.

Lemma swap_WAN21_trace i c t e nb h d l f fl w p bm :
  patchers (mem w) !! h = Some p →
  models (mem w) !! model p = Some bm →
  isinstance_WAN21 (class_of bm) = true →
  ∃ evs,
    trace (swap_blocks_after_load host i c t e nb h d l f fl w).2
    = trace w ++ swap_events i c t e nb h p (length (blocks (diffusion_model bm))) ++ evs
    ∧ Forall (λ ev, ev ∈ [SoftEmptyCache; GcCollect; swap_end i]) evs.
Proof.
  intros Hp Hm Hc. rewrite (swap_run_WAN21 host i c t e nb h d l f fl w p bm Hp Hm Hc).
  destruct (tail_run_frame host (swap_end i)
    {| mem := set_models (<[model p := swap_placed c t e p bm]> (models (mem w))) (mem w);
       allocator := allocator w;
       trace := trace w ++ swap_events i c t e nb h p (length (blocks (diffusion_model bm))) |})
    as [_ (evs & Htr & Hevs)].
  exists evs. split; [|done]. rewrite Htr. cbn [trace]. by rewrite <- app_assoc.
Qed.

Lemma swap_WAN21_safe i c t e nb h d l f fl w p bm :
  reclamation_safe host →
  patchers (mem w) !! h = Some p →
  models (mem w) !! model p = Some bm →
  isinstance_WAN21 (class_of bm) = true →
  ∃ a,
    swap_blocks_after_load host i c t e nb h d l f fl w
    = (Ok tt,
       {| mem := set_models (<[model p := swap_placed c t e p bm]> (models (mem w))) (mem w);
          allocator := a;
          trace := trace w ++ swap_events i c t e nb h p (length (blocks (diffusion_model bm)))
                     ++ [SoftEmptyCache; GcCollect; swap_end i] |}).
Proof.
  intros Hsafe Hp Hm Hc. rewrite (swap_run_WAN21 host i c t e nb h d l f fl w p bm Hp Hm Hc).
  destruct (tail_run_safe host (swap_end i)
    {| mem := set_models (<[model p := swap_placed c t e p bm]> (models (mem w))) (mem w);
       allocator := allocator w;
       trace := trace w ++ swap_events i c t e nb h p (length (blocks (diffusion_model bm))) |}
    Hsafe) as [a ->].
  exists a. cbn [mem trace]. by rewrite <- app_assoc.
Qed.

Lemma swap_other_safe i c t e nb h d l f fl w p bm :
  reclamation_safe host →
  patchers (mem w) !! h = Some p →
  models (mem w) !! model p = Some bm →
  isinstance_WAN21 (class_of bm) = false →
  ∃ a,
    swap_blocks_after_load host i c t e nb h d l f fl w
    = (Ok tt,
       {| mem := mem w;
          allocator := a;
          trace := trace w ++
            [swap_start i h;
             Log WARNING "  - Model is not a WAN21 instance, block swapping skipped."]
            ++ [SoftEmptyCache; GcCollect; swap_end i] |}).
Proof.
  intros Hsafe Hp Hm Hc. rewrite (swap_run_other host i c t e nb h d l f fl w p bm Hp Hm Hc).
  destruct (tail_run_safe host (swap_end i)
    (logged [swap_start i h;
             Log WARNING "  - Model is not a WAN21 instance, block swapping skipped."] w)
    Hsafe) as [a ->].
  exists a. unfold logged. cbn [mem trace]. by rewrite <- app_assoc.
Qed.

Lemma swap_block_residency i c t e nb h d l f fl w p bm b :
  patchers (mem w) !! h = Some p →
  models (mem w) !! model p = Some bm →
  isinstance_WAN21 (class_of bm) = true →
  (b < length (blocks (diffusion_model bm)))%nat →
  residency (swap_blocks_after_load host i c t e nb h d l f fl w).2 (model p) (Block b)
  = Some (target_dev p c b).
Proof.
  intros Hp Hm Hc Hb. unfold residency.
  rewrite (swap_WAN21_mem i c t e nb h d l f fl w p bm Hp Hm Hc).
  cbn [models set_models]. rewrite lookup_insert_eq. cbn [mbind option_bind].
  rewrite swap_placed_blocks, place_from_lookup.
  rewrite decide_True by lia.
  destruct (lookup_lt_is_Some_2 _ _ Hb) as [x ->]. reflexivity.
Qed.

(** C1: for every cutoff (in particular every value of the node's range
    0..40), after [swap_blocks_after_load] ran on a WAN21 model every
    block with an index above the cutoff is on the load device and every
    block with an index up to the cutoff is on the offload device; with
    cutoff 0, block 0 alone is offloaded.  The run ends normally when the
    reclamation pass does. *)
Theorem blocks_split_at_cutoff i cutoff t e nb h d l f fl w p bm :
  patchers (mem w) !! h = Some p →
  models (mem w) !! model p = Some bm →
  isinstance_WAN21 (class_of bm) = true →
  let r := swap_blocks_after_load host i cutoff t e nb h d l f fl w in
  let n := length (blocks (diffusion_model bm)) in
  (reclamation_safe host → r.1 = Ok tt) ∧
  (∀ b, (b < n)%nat → (cutoff < Z.of_nat b)%Z →
        residency r.2 (model p) (Block b) = Some (load_device p)) ∧
  (∀ b, (b < n)%nat → (Z.of_nat b ≤ cutoff)%Z →
        residency r.2 (model p) (Block b) = Some (offload_device p)) ∧
  (∀ b, (n ≤ b)%nat → residency r.2 (model p) (Block b) = None) ∧
  (cutoff = 0%Z →
   ∀ b, (b < n)%nat →
        residency r.2 (model p) (Block b)
        = Some (if decide (b = 0%nat) then offload_device p else load_device p)).
Proof.
  intros Hp Hm Hc r n. subst r n. repeat split.
  - intros Hsafe.
    by destruct (swap_WAN21_safe i cutoff t e nb h d l f fl w p bm Hsafe Hp Hm Hc) as [a ->].
  - intros b Hb Hlt. rewrite (swap_block_residency _ _ _ _ _ _ _ _ _ _ _ _ bm) by done.
    by rewrite target_dev_above.
  - intros b Hb Hle. rewrite (swap_block_residency _ _ _ _ _ _ _ _ _ _ _ _ bm) by done.
    by rewrite target_dev_upto.
  - intros b Hb. unfold residency.
    rewrite (swap_WAN21_mem i cutoff t e nb h d l f fl w p bm Hp Hm Hc).
    cbn [models set_models]. rewrite lookup_insert_eq. cbn [mbind option_bind].
    rewrite swap_placed_blocks.
    rewrite (lookup_ge_None_2 (place_from _ _ _ _ _)); [done|].
    by rewrite place_from_length.
  - intros -> b Hb. rewrite (swap_block_residency _ _ _ _ _ _ _ _ _ _ _ _ bm) by done.
    case_decide as Hz.
    + subst b. by rewrite target_dev_upto.
    + rewrite target_dev_above; [done | lia].
Qed.


(** C3: on a model that is not of the WAN21 family
    [swap_blocks_after_load] leaves the whole store as it was, so no
    block and neither auxiliary sub-module changes residency; it emits
    no transfer; and it raises nothing, the reclamation pass, which it
    still runs, being one that does not raise. *)
Theorem unrecognized_architecture_is_skipped i c t e nb h d l f fl w p bm :
  reclamation_safe host →
  patchers (mem w) !! h = Some p →
  models (mem w) !! model p = Some bm →
  isinstance_WAN21 (class_of bm) = false →
  let r := swap_blocks_after_load host i c t e nb h d l f fl w in
  r.1 = Ok tt ∧
  mem r.2 = mem w ∧
  (∀ m sub, residency r.2 m sub = residency w m sub) ∧
  trace r.2 = trace w ++
    [swap_start i h;
     Log WARNING "  - Model is not a WAN21 instance, block swapping skipped.";
     SoftEmptyCache; GcCollect; swap_end i] ∧
  Forall (λ ev, is_transfer ev = false) (drop (length (trace w)) (trace r.2)).
Proof.
  intros Hsafe Hp Hm Hc r. subst r.
  destruct (swap_other_safe i c t e nb h d l f fl w p bm Hsafe Hp Hm Hc) as [a ->].
  cbn [fst snd mem trace]. repeat split.
  rewrite drop_app_length. repeat constructor.
Qed.

(** C9: the result of [swap_blocks_after_load], and with it the
    residency of every block and auxiliary sub-module, is the same
    whatever [device_to], [lowvram_model_memory], [force_patch_weights]
    and [full_load] are. *)
Theorem residency_ignores_load_arguments i c t e nb h w
    (d1 d2 : device) (l1 l2 : Z) (f1 f2 fl1 fl2 : bool) :
  swap_blocks_after_load host i c t e nb h d1 l1 f1 fl1 w
  = swap_blocks_after_load host i c t e nb h d2 l2 f2 fl2 w
  ∧ ∀ m sub,
      residency (swap_blocks_after_load host i c t e nb h d1 l1 f1 fl1 w).2 m sub
      = residency (swap_blocks_after_load host i c t e nb h d2 l2 f2 fl2 w).2 m sub.
Proof. split; reflexivity. Qed.

End Residency.

(** ** What the schedulers emit *)

Section Emissions.
Context {PL AL : Type} (host : host_ops PL AL).
Implicit Types (w : world PL AL) (p : ModelPatcher) (bm : BaseModel).

Lemma elem_of_block_events p c k n ev :
  ev ∈ block_events p c k n ↔
  ∃ b, (k ≤ b < k + n)%nat ∧ ev = ModuleTo (model p) (Block b) (target_dev p c b) false.
Proof.
  unfold block_events. rewrite list_elem_of_In, in_map_iff. split.
  - intros (b & <- & Hb%in_seq). eauto.
  - intros (b & Hb & ->). exists b. split; [done|]. by apply in_seq.
Qed.

Lemma elem_of_aux_events flag p sub name nb ev :
  ev ∈ aux_events flag p sub name nb ↔
  flag = true ∧
  (ev = Log INFO ("  - Offloading " +:+ name +:+ " to " +:+ offload_device p)
   ∨ ev = ModuleTo (model p) sub (offload_device p) nb).
Proof.
  unfold aux_events. destruct flag.
  - rewrite !elem_of_cons, elem_of_nil. tauto.
  - rewrite elem_of_nil. split; [tauto | by intros [? _]].
Qed.

Lemma elem_of_swap_events i c t e nb h p n ev :
  ev ∈ swap_events i c t e nb h p n ↔
  ev = swap_start i h
  ∨ ev = Log INFO ("  - Swapping " +:+ str_int c +:+ " blocks in WAN21 UNet.")
  ∨ ev ∈ block_events p c 0 n
  ∨ ev ∈ aux_events t p TextEmbedding "text_embedding" nb
  ∨ ev ∈ aux_events e p ImgEmb "img_emb" nb.
Proof.
  unfold swap_events. rewrite !elem_of_app, !elem_of_cons, elem_of_nil. tauto.
Qed.

Lemma swap_events_no_reclaim i c t e nb h p n :
  Forall (λ ev, is_reclaim ev = false) (swap_events i c t e nb h p n).
Proof.
  apply Forall_forall. intros ev Hev.
  apply elem_of_swap_events in Hev as [->|[->|[Hev|[Hev|Hev]]]]; try done.
  - apply elem_of_block_events in Hev as (b & _ & ->). done.
  - apply elem_of_aux_events in Hev as (_ & [->| ->]); done.
  - apply elem_of_aux_events in Hev as (_ & [->| ->]); done.
Qed.

(** C10: on a WAN21 model every block is moved by a blocking transfer
    ([non_blocking] is false) whatever [use_non_blocking] is, and each
    block is moved; the transfers of [text_embedding] and [img_emb], made
    when their flags are set, carry [use_non_blocking]. *)
Theorem block_transfers_are_blocking i c t e nb h d l f fl w p bm :
  patchers (mem w) !! h = Some p →
  models (mem w) !! model p = Some bm →
  isinstance_WAN21 (class_of bm) = true →
  let r := swap_blocks_after_load host i c t e nb h d l f fl w in
  ∃ evs,
    trace r.2 = trace w ++ evs ∧
    (∀ m b dev k, ModuleTo m (Block b) dev k ∈ evs → k = false) ∧
    (∀ m dev k, ModuleTo m TextEmbedding dev k ∈ evs → k = nb) ∧
    (∀ m dev k, ModuleTo m ImgEmb dev k ∈ evs → k = nb) ∧
    (∀ b, (b < length (blocks (diffusion_model bm)))%nat →
          ModuleTo (model p) (Block b)
            (if (Z.of_nat b >? c)%Z then load_device p else offload_device p) false ∈ evs) ∧
    (t = true → ModuleTo (model p) TextEmbedding (offload_device p) nb ∈ evs) ∧
    (e = true → ModuleTo (model p) ImgEmb (offload_device p) nb ∈ evs).
Proof.
  intros Hp Hm Hc r. subst r.
  destruct (swap_WAN21_trace host i c t e nb h d l f fl w p bm Hp Hm Hc)
    as (tl & Htr & Htl).
  eexists. split; [exact Htr|].
  assert (Hin : ∀ ev, is_transfer ev = true →
            ev ∈ swap_events i c t e nb h p (length (blocks (diffusion_model bm))) ++ tl →
            (∃ b, (b < length (blocks (diffusion_model bm)))%nat
                  ∧ ev = ModuleTo (model p) (Block b) (target_dev p c b) false)
            ∨ (t = true ∧ ev = ModuleTo (model p) TextEmbedding (offload_device p) nb)
            ∨ (e = true ∧ ev = ModuleTo (model p) ImgEmb (offload_device p) nb)).
  { intros ev Htrans [Hev|Hev]%elem_of_app.
    - apply elem_of_swap_events in Hev as [->|[->|[Hev|[Hev|Hev]]]]; try done.
      + apply elem_of_block_events in Hev as (b & Hb & ->). left. exists b. split; [lia|done].
      + apply elem_of_aux_events in Hev as (-> & [->| ->]); [done|]. right; left. done.
      + apply elem_of_aux_events in Hev as (-> & [->| ->]); [done|]. right; right. done.
    - rewrite Forall_forall in Htl. specialize (Htl _ Hev).
      rewrite !elem_of_cons, elem_of_nil in Htl.
      destruct Htl as [->|[->|[->|[]]]]; done. }
  repeat split.
  - intros m b dev k Hev. apply Hin in Hev; [|done].
    destruct Hev as [(b' & _ & Heq)|[(_ & Heq)|(_ & Heq)]]; congruence.
  - intros m dev k Hev. apply Hin in Hev; [|done].
    destruct Hev as [(b' & _ & Heq)|[(_ & Heq)|(_ & Heq)]]; congruence.
  - intros m dev k Hev. apply Hin in Hev; [|done].
    destruct Hev as [(b' & _ & Heq)|[(_ & Heq)|(_ & Heq)]]; congruence.
  - intros b Hb. apply elem_of_app. left. apply elem_of_swap_events.
    right; right; left. apply elem_of_block_events. exists b. split; [lia|done].
  - intros ->. apply elem_of_app. left. apply elem_of_swap_events.
    right; right; right; left. apply elem_of_aux_events. auto.
  - intros ->. apply elem_of_app. left. apply elem_of_swap_events.
    right; right; right; right. apply elem_of_aux_events. auto.
Qed.

(** C8: both schedulers, when they end normally, end with the
    reclamation pass: [soft_empty_cache()] and then [gc.collect()], with
    only the closing log line after them.  Everything else the scheduler
    emitted, all transfers of [swap_blocks_after_load] and the unpatching
    of [cleanup_after_sampling], comes before the pass, and no
    reclamation call is among it. *)
Theorem schedulers_end_with_reclamation i c t e nb h d l f fl w p bm :
  reclamation_safe host →
  patchers (mem w) !! h = Some p →
  models (mem w) !! model p = Some bm →
  (let r := swap_blocks_after_load host i c t e nb h d l f fl w in
   let pre :=
     if isinstance_WAN21 (class_of bm)
     then swap_events i c t e nb h p (length (blocks (diffusion_model bm)))
     else [swap_start i h;
           Log WARNING "  - Model is not a WAN21 instance, block swapping skipped."] in
   r.1 = Ok tt ∧
   trace r.2 = trace w ++ pre ++ [SoftEmptyCache; GcCollect; swap_end i] ∧
   Forall (λ ev, is_reclaim ev = false) pre) ∧
  (let r := cleanup_after_sampling host i h w in
   let pre := [cleanup_start i h; UnpatchModel h (offload_device p) true] in
   (unpatch_model host h p (offload_device p) true
      (models (mem w)) (patch_layer (mem w))).1 = Ok tt →
   r.1 = Ok tt ∧
   trace r.2 = trace w ++ pre ++ [SoftEmptyCache; GcCollect; cleanup_end i]).
Proof.
  intros Hsafe Hp Hm. split.
  - cbv zeta. destruct (isinstance_WAN21 (class_of bm)) eqn:Hc.
    + destruct (swap_WAN21_safe host i c t e nb h d l f fl w p bm Hsafe Hp Hm Hc) as [a ->].
      cbn [fst snd trace]. repeat split. apply swap_events_no_reclaim.
    + destruct (swap_other_safe host i c t e nb h d l f fl w p bm Hsafe Hp Hm Hc) as [a ->].
      cbn [fst snd trace]. repeat split. repeat constructor.
  - cbv zeta. intros Hu. rewrite (cleanup_run host i h w p Hp).
    destruct (unpatch_model host h p (offload_device p) true (models (mem w))
                (patch_layer (mem w))) as [r [ms pl]].
    cbn [fst] in Hu. subst r. cbv beta iota zeta.
    match goal with
    | |- context [(call_soft_empty_cache host ;; _) ?w1] =>
        destruct (tail_run_safe host (cleanup_end i) w1 Hsafe) as [a ->]
    end.
    cbn [fst snd trace]. rewrite <- app_assoc. done.
Qed.

End Emissions.

(** ** After [cleanup_after_sampling] *)

Section Cleanup.
Context {PL AL : Type} (host : host_ops PL AL).
Implicit Types (w : world PL AL) (p : ModelPatcher) (bm : BaseModel).


(** The callback has no handler for the reclamation pass either: with a
    runtime whose cache emptying raises, the exception leaves
    [cleanup_after_sampling] although unpatching succeeded. *)
Lemma cleanup_reclaim_failure_propagates i h w p ms pl e :
  patchers (mem w) !! h = Some p →
  unpatch_model host h p (offload_device p) true (models (mem w)) (patch_layer (mem w))
  = (Ok tt, (ms, pl)) →
  (soft_empty_cache host (allocator w)).1 = Raise e →
  (cleanup_after_sampling host i h w).1 = Raise e.
Proof.
  intros Hp Hu He. rewrite (cleanup_run host i h w p Hp), Hu. cbv beta iota zeta.
  by apply tail_run_raises.
Qed.



End Cleanup.

(** ** After [set_callback] *)

Section Registration.
Context {PL AL : Type}.
Implicit Types (w : world PL AL) (p : ModelPatcher).

Lemma registered_callbacks self c t e nb p ct k :
  callbacks_at
    (register CallbacksMP.ON_CLEANUP (cleanup_key self) (cleanup_after_sampling_cb self)
       (register CallbacksMP.ON_LOAD (swap_key self)
          (swap_blocks_after_load_cb self c t e nb) p)) ct k
  = callbacks_at p ct k ++
      (if decide (ct = CallbacksMP.ON_LOAD ∧ k = swap_key self)
       then [swap_blocks_after_load_cb self c t e nb]
       else if decide (ct = CallbacksMP.ON_CLEANUP ∧ k = cleanup_key self)
            then [cleanup_after_sampling_cb self]
            else []).
Proof.
  rewrite !callbacks_at_register, <- app_assoc. f_equal.
  destruct (decide (CallbacksMP.ON_LOAD = ct ∧ swap_key self = k)) as [[<- <-]|Hl].
  - rewrite (decide_False (P := CallbacksMP.ON_CLEANUP = _ ∧ _))
      by (intros [? _]; discriminate).
    by rewrite decide_True.
  - rewrite (decide_False (P := ct = CallbacksMP.ON_LOAD ∧ _)) by (intros [-> ->]; tauto).
    destruct (decide (CallbacksMP.ON_CLEANUP = ct ∧ cleanup_key self = k)) as [[<- <-]|Hc].
    + by rewrite decide_True.
    + by rewrite decide_False by (intros [-> ->]; tauto).
Qed.

(** C6: [set_callback] returns a patcher that did not exist before, over
    the same base model and devices, with the two closures in its
    callback table.  The patcher passed in, like every other patcher, is
    as it was (its callback table included), and so are the base models
    with the residency of all their sub-modules, the patch layer and the
    allocator. *)
Theorem set_callback_clones_before_registering self m c t e nb w p :
  patchers (mem w) !! m = Some p →
  let r := set_callback self m c t e nb w in
  ∃ h' p',
    r.1 = Ok h' ∧
    patchers (mem w) !! h' = None ∧
    h' ≠ m ∧
    patchers (mem r.2) !! h' = Some p' ∧
    model p' = model p ∧
    load_device p' = load_device p ∧
    offload_device p' = offload_device p ∧
    swap_blocks_after_load_cb self c t e nb
      ∈ callbacks_at p' CallbacksMP.ON_LOAD (swap_key self) ∧
    cleanup_after_sampling_cb self
      ∈ callbacks_at p' CallbacksMP.ON_CLEANUP (cleanup_key self) ∧
    patchers (mem r.2) !! m = Some p ∧
    (∀ h, h ≠ h' → patchers (mem r.2) !! h = patchers (mem w) !! h) ∧
    models (mem r.2) = models (mem w) ∧
    (∀ x sub, residency r.2 x sub = residency w x sub) ∧
    patch_layer (mem r.2) = patch_layer (mem w) ∧
    allocator r.2 = allocator w.
Proof.
  intros Hp r. subst r. rewrite (set_callback_run self m c t e nb w p Hp).
  cbv zeta. cbn [fst snd mem patchers models patch_layer allocator set_patchers].
  set (h' := fresh (dom (patchers (mem w)))).
  assert (Hfresh : patchers (mem w) !! h' = None).
  { apply not_elem_of_dom. apply is_fresh. }
  assert (Hne : h' ≠ m) by congruence.
  exists h', (register CallbacksMP.ON_CLEANUP (cleanup_key self)
               (cleanup_after_sampling_cb self)
               (register CallbacksMP.ON_LOAD (swap_key self)
                  (swap_blocks_after_load_cb self c t e nb) p)).
  repeat split; try done.
  - apply lookup_insert_eq.
  - rewrite registered_callbacks. apply elem_of_app. right.
    rewrite decide_True by done. apply list_elem_of_singleton. done.
  - rewrite registered_callbacks. apply elem_of_app. right.
    rewrite decide_False by (intros [? _]; discriminate).
    rewrite decide_True by done. apply list_elem_of_singleton. done.
  - by rewrite lookup_insert_ne.
  - intros h Hh. by rewrite lookup_insert_ne.
Qed.

(** C7: the callback table of the patcher that [set_callback] returns is
    the table of the one passed in with exactly two closures appended:
    [swap_blocks_after_load] under [on_load] and the key
    ["wan_block_swap_" + str(id(self))], [cleanup_after_sampling] under
    [on_cleanup] and the key ["wan_cleanup_" + str(id(self))]; two calls
    of [add_callback_with_key] are made and no other.  Nodes of distinct
    identity have distinct keys at either hook. *)
Theorem set_callback_registers_two_keyed_closures self m c t e nb w p :
  patchers (mem w) !! m = Some p →
  let r := set_callback self m c t e nb w in
  (∃ h' p',
     r.1 = Ok h' ∧
     patchers (mem r.2) !! h' = Some p' ∧
     (∀ ct k,
        callbacks_at p' ct k
        = callbacks_at p ct k ++
            (if decide (ct = CallbacksMP.ON_LOAD ∧ k = swap_key self)
             then [swap_blocks_after_load_cb self c t e nb]
             else if decide (ct = CallbacksMP.ON_CLEANUP ∧ k = cleanup_key self)
                  then [cleanup_after_sampling_cb self]
                  else [])) ∧
     trace r.2 = trace w ++
       [Log INFO ("WanVideoBlockSwap: Initializing for Patcher ID: " +:+ str_int m);
        Clone m h';
        AddCallbackWithKey h' CallbacksMP.ON_LOAD (swap_key self);
        AddCallbackWithKey h' CallbacksMP.ON_CLEANUP (cleanup_key self)]) ∧
  (∀ other, other ≠ self →
     swap_key other ≠ swap_key self ∧ cleanup_key other ≠ cleanup_key self).
Proof.
  intros Hp r. subst r. rewrite (set_callback_run self m c t e nb w p Hp).
  cbv zeta. cbn [fst snd mem patchers trace set_patchers]. split.
  - eexists _, _. split; [done|]. split; [apply lookup_insert_eq|]. split; [|done].
    intros ct k. apply registered_callbacks.
  - intros other Hne. split.
    + intros Heq. by apply swap_key_inj in Heq.
    + intros Heq. by apply cleanup_key_inj in Heq.
Qed.

End Registration.

(** ** The reference host keeps the contracts *)

Lemma reference_reclamation_safe : reclamation_safe Reference.host.
Proof. split; intros a; reflexivity. Qed.

Lemma to_device_idemp dev (x : nn_module) : to_device dev (to_device dev x) = to_device dev x.
Proof. reflexivity. Qed.

Lemma move_all_idemp dev bm :
  Reference.move_all dev (Reference.move_all dev bm) = Reference.move_all dev bm.
Proof.
  unfold Reference.move_all. cbn [class_of diffusion_model blocks text_embedding img_emb].
  f_equal. f_equal. rewrite <- list_fmap_compose. by apply list_fmap_ext.
Qed.

Lemma reference_unpatch_settles : unpatch_settles Reference.host.
Proof.
  intros h p dev ms pl ms' pl'. cbn [unpatch_model Reference.host].
  unfold Reference.unpatch. destruct (Reference.jammed pl); [done|].
  intros [= <- <-]. cbn [Reference.jammed]. do 2 f_equal.
  apply map_eq. intros k. rewrite !lookup_alter.
  case_decide as Hk; [|done]. subst k. rewrite decide_True by done.
  destruct (ms !! model p) as [bm|]; cbn; [|done]. by rewrite move_all_idemp.
Qed.

(** ** The registered closures at work *)

(** Firing the closure that [set_callback] put under [on_load] runs
    [swap_blocks_after_load] with the captured policy. *)
Lemma fire_registered_swap {PL AL : Type} (host : host_ops PL AL)
    i c t e nb h d l f fl (w : world PL AL) :
  fire_on_load host (swap_blocks_after_load_cb i c t e nb) h d l f fl w
  = swap_blocks_after_load host i c t e nb h d l f fl w.
Proof. reflexivity. Qed.

Lemma fire_registered_cleanup {PL AL : Type} (host : host_ops PL AL)
    i h (w : world PL AL) :
  fire_on_cleanup host (cleanup_after_sampling_cb i) h w
  = cleanup_after_sampling host i h w.
Proof. reflexivity. Qed.

(** The clone and the patcher it was cloned from refer to one base model:
    once the host fires the closure on the clone (patcher 3), block 0 of
    model 7, which patcher 1 refers to as well, is on the offload device. *)
Lemma clone_shares_base_model :
  let w := Reference.store false in
  let r := set_callback 99 1 1 false false false w in
  let r' := fire_on_load Reference.host (swap_blocks_after_load_cb 99 1 false false false)
              3 "cuda:0" 0 false false r.2 in
  r.1 = Ok 3%Z ∧
  model <$> patchers (mem r'.2) !! 3%Z = Some 7%Z ∧
  model <$> patchers (mem r'.2) !! 1%Z = Some 7%Z ∧
  residency w 7 (Block 0) = Some "cuda:0" ∧
  residency r.2 7 (Block 0) = Some "cuda:0" ∧
  residency r'.2 7 (Block 0) = Some "cpu".
Proof. cbv zeta. repeat split; vm_compute; reflexivity. Qed.

(** On a runtime that breaks the reclamation contract the exception of
    [soft_empty_cache] leaves [cleanup_after_sampling], unpatching having
    succeeded. *)
Lemma cleanup_on_failing_runtime :
  let r := cleanup_after_sampling Reference.failing_host 99 1 (Reference.store false) in
  r.1 = Raise (Exception "CUDA error") ∧
  Reference.patched (patch_layer (mem r.2)) = [] ∧
  trace r.2 =
    [Log INFO "-[ CLEANUP_AFTER_SAMPLING CALLBACK (99) START | Patcher ID: 1 ]-";
     UnpatchModel 1 "cpu" true;
     SoftEmptyCache].
Proof.
  cbv zeta. split.
  - by apply (cleanup_reclaim_failure_propagates Reference.failing_host 99 1
                (Reference.store false) (Reference.patcher 7)
                (alter (Reference.move_all "cpu") 7%Z (models (mem (Reference.store false))))
                {| Reference.patched := []; Reference.jammed := false |}).
  - split; vm_compute; reflexivity.
Qed.

(** ** The theorems at work on the reference store *)

Lemma blocks_split_at_cutoff_witness :
  let w := Reference.store false in
  let r := swap_blocks_after_load Reference.host 99 1 true false true
             1 "cuda:0" 0 false false w in
  patchers (mem w) !! 1%Z = Some (Reference.patcher 7) ∧
  models (mem w) !! 7%Z = Some (Reference.net WAN21 3) ∧
  r.1 = Ok tt ∧
  residency r.2 7 (Block 0) = Some "cpu" ∧
  residency r.2 7 (Block 1) = Some "cpu" ∧
  residency r.2 7 (Block 2) = Some "cuda:0".
Proof.
  cbv zeta.
  destruct (blocks_split_at_cutoff Reference.host 99 1 true false true
              1 "cuda:0" 0 false false (Reference.store false)
              (Reference.patcher 7) (Reference.net WAN21 3) eq_refl eq_refl eq_refl)
    as (Hok & Habove & Hupto & _).
  split; [reflexivity|]. split; [reflexivity|].
  split; [exact (Hok reference_reclamation_safe)|].
  split; [apply (Hupto 0%nat); vm_compute; [lia | discriminate]|].
  split; [apply (Hupto 1%nat); vm_compute; [lia | discriminate]|].
  apply (Habove 2%nat); vm_compute; [lia | reflexivity].
Defined.



Lemma unrecognized_architecture_is_skipped_witness :
  let w := Reference.store false in
  let r := swap_blocks_after_load Reference.host 99 20 true true true
             2 "cuda:0" 0 false false w in
  patchers (mem w) !! 2%Z = Some (Reference.patcher 8) ∧
  isinstance_WAN21 (class_of (Reference.net (other_class "Flux") 3)) = false ∧
  r.1 = Ok tt ∧
  mem r.2 = mem w ∧
  residency r.2 8 TextEmbedding = Some "cuda:0" ∧
  residency r.2 8 ImgEmb = Some "cuda:0".
Proof.
  cbv zeta.
  destruct (unrecognized_architecture_is_skipped Reference.host 99 20 true true true
              2 "cuda:0" 0 false false (Reference.store false)
              (Reference.patcher 8) (Reference.net (other_class "Flux") 3)
              reference_reclamation_safe eq_refl eq_refl eq_refl)
    as (Hok & Hmem & Hres & _).
  split; [reflexivity|]. split; [reflexivity|].
  split; [exact Hok|]. split; [exact Hmem|].
  split; [rewrite Hres; reflexivity | rewrite Hres; reflexivity].
Defined.





Lemma set_callback_clones_before_registering_witness :
  let w := Reference.store false in
  let r := set_callback 99 1 20 false true false w in
  patchers (mem w) !! 1%Z = Some (Reference.patcher 7) ∧
  r.1 = Ok 3%Z ∧
  patchers (mem r.2) !! 1%Z = Some (Reference.patcher 7) ∧
  models (mem r.2) = models (mem w) ∧
  callbacks_at (Reference.patcher 7) CallbacksMP.ON_LOAD "wan_block_swap_99" = [].
Proof.
  cbv zeta.
  destruct (set_callback_clones_before_registering 99 1 20 false true false
              (Reference.store false) (Reference.patcher 7) eq_refl)
    as (h' & p' & _ & _ & _ & _ & _ & _ & _ & _ & _ & Horig & _ & Hmodels & _).
  split; [reflexivity|]. split; [vm_compute; reflexivity|].
  split; [exact Horig|]. split; [exact Hmodels|]. vm_compute; reflexivity.
Defined.

Lemma set_callback_registers_two_keyed_closures_witness :
  let w := Reference.store false in
  let r := set_callback 99 1 20 false true false w in
  patchers (mem w) !! 1%Z = Some (Reference.patcher 7) ∧
  swap_key 99 = "wan_block_swap_99" ∧
  cleanup_key 99 = "wan_cleanup_99" ∧
  swap_key 100 ≠ swap_key 99 ∧
  cleanup_key 100 ≠ cleanup_key 99 ∧
  trace r.2 =
    [Log INFO "WanVideoBlockSwap: Initializing for Patcher ID: 1";
     Clone 1 3;
     AddCallbackWithKey 3 "on_load" "wan_block_swap_99";
     AddCallbackWithKey 3 "on_cleanup" "wan_cleanup_99"].
Proof.
  cbv zeta.
  destruct (set_callback_registers_two_keyed_closures 99 1 20 false true false
              (Reference.store false) (Reference.patcher 7) eq_refl)
    as (_ & Hkeys).
  destruct (Hkeys 100%Z ltac:(discriminate)) as (Hs & Hc).
  split; [reflexivity|]. split; [vm_compute; reflexivity|].
  split; [vm_compute; reflexivity|].
  split; [exact Hs|]. split; [exact Hc|]. vm_compute; reflexivity.
Defined.

Lemma schedulers_end_with_reclamation_witness :
  let w := Reference.store false in
  let r := swap_blocks_after_load Reference.host 99 1 true false true
             1 "cuda:0" 0 false false w in
  let r' := cleanup_after_sampling Reference.host 99 1 w in
  patchers (mem w) !! 1%Z = Some (Reference.patcher 7) ∧
  r.1 = Ok tt ∧
  drop 7 (trace r.2) =
    [SoftEmptyCache; GcCollect;
     Log INFO "-[ SWAP_BLOCKS_AFTER_LOAD CALLBACK (99) END ]-"] ∧
  r'.1 = Ok tt ∧
  trace r'.2 =
    [Log INFO "-[ CLEANUP_AFTER_SAMPLING CALLBACK (99) START | Patcher ID: 1 ]-";
     UnpatchModel 1 "cpu" true;
     SoftEmptyCache; GcCollect;
     Log INFO "-[ CLEANUP_AFTER_SAMPLING CALLBACK (99) END ]-"].
Proof.
  cbv zeta.
  destruct (schedulers_end_with_reclamation Reference.host 99 1 true false true
              1 "cuda:0" 0 false false (Reference.store false)
              (Reference.patcher 7) (Reference.net WAN21 3)
              reference_reclamation_safe eq_refl eq_refl)
    as ((Hok & Htr & _) & Hclean).
  destruct (Hclean eq_refl) as (Hok' & Htr').
  split; [reflexivity|]. split; [exact Hok|].
  split; [rewrite Htr; vm_compute; reflexivity|].
  split; [exact Hok'|]. exact Htr'.
Defined.

Lemma block_transfers_are_blocking_witness :
  let w := Reference.store false in
  let r := swap_blocks_after_load Reference.host 99 1 true false true
             1 "cuda:0" 0 false false w in
  patchers (mem w) !! 1%Z = Some (Reference.patcher 7) ∧
  ModuleTo 7 (Block 2) "cuda:0" false ∈ trace r.2 ∧
  ModuleTo 7 TextEmbedding "cpu" true ∈ trace r.2 ∧
  ModuleTo 7 (Block 2) "cuda:0" true ∉ trace r.2.
Proof.
  cbv zeta.
  destruct (block_transfers_are_blocking Reference.host 99 1 true false true
              1 "cuda:0" 0 false false (Reference.store false)
              (Reference.patcher 7) (Reference.net WAN21 3) eq_refl eq_refl eq_refl)
    as (evs & Htr & Hblock & _ & _ & Hall & Htxt & _).
  split; [reflexivity|].
  split; [rewrite Htr; apply elem_of_app; right; apply (Hall 2%nat); vm_compute; lia|].
  split; [rewrite Htr; apply elem_of_app; right; apply Htxt; reflexivity|].
  rewrite Htr. intros [Hin|Hin]%elem_of_app.
  - vm_compute in Hin. inversion Hin.
  - apply Hblock in Hin. discriminate Hin.
Defined.

(** ** More on [swap_blocks_after_load] *)

Section Placement.
Context {PL AL : Type} (host : host_ops PL AL).
Implicit Types (w : world PL AL) (p : ModelPatcher) (bm : BaseModel).

Lemma swap_placed_unfold c t e p bm :
  swap_placed c t e p bm
  = {| class_of := class_of bm;
       diffusion_model :=
         {| blocks := place_from p c 0 (length (blocks (diffusion_model bm)))
                        (blocks (diffusion_model bm));
            text_embedding :=
              if t then to_device (offload_device p) (text_embedding (diffusion_model bm))
              else text_embedding (diffusion_model bm);
            img_emb :=
              if e then to_device (offload_device p) (img_emb (diffusion_model bm))
              else img_emb (diffusion_model bm) |} |}.
Proof. unfold swap_placed, aux_placed. by destruct t, e. Qed.

Lemma place_from_split p c (bs : list nn_module) :
  place_from p c 0 (length bs) bs = split_blocks p c bs.
Proof.
  apply list_eq. intros i. rewrite place_from_lookup. unfold split_blocks.
  set (k := Z.to_nat (c + 1)).
  destruct (decide (i < length bs)%nat) as [Hi|Hi].
  - rewrite decide_True by lia. rewrite lookup_app, list_lookup_fmap.
    destruct (decide (i < k)%nat) as [Hk|Hk].
    + rewrite lookup_take_lt by done.
      destruct (lookup_lt_is_Some_2 _ _ Hi) as [x ->]. cbn.
      rewrite target_dev_upto; [done | lia].
    + rewrite lookup_take_ge by lia. cbn.
      rewrite length_fmap, length_take, list_lookup_fmap, lookup_drop.
      replace (k + (i - k `min` length bs))%nat with i by lia.
      rewrite target_dev_above; [done | lia].
  - rewrite decide_False by lia. rewrite (lookup_ge_None_2 bs) by lia.
    symmetry. apply lookup_ge_None_2.
    rewrite length_app, !length_fmap, length_take, length_drop. lia.
Qed.

Lemma place_from_idemp p c (bs : list nn_module) :
  place_from p c 0 (length bs) (place_from p c 0 (length bs) bs)
  = place_from p c 0 (length bs) bs.
Proof.
  apply list_eq. intros i. rewrite !place_from_lookup.
  case_decide; [|done]. by destruct (bs !! i).
Qed.

Lemma swap_placed_idemp c t e p bm :
  swap_placed c t e p (swap_placed c t e p bm) = swap_placed c t e p bm.
Proof.
  rewrite (swap_placed_unfold c t e p (swap_placed c t e p bm)).
  rewrite !swap_placed_unfold.
  cbn [class_of diffusion_model blocks text_embedding img_emb].
  rewrite place_from_length, place_from_idemp. by destruct t, e.
Qed.

Lemma swap_aux_residency i c t e nb h d l f fl w p bm :
  patchers (mem w) !! h = Some p →
  models (mem w) !! model p = Some bm →
  isinstance_WAN21 (class_of bm) = true →
  residency (swap_blocks_after_load host i c t e nb h d l f fl w).2 (model p) TextEmbedding
  = Some (if t then offload_device p
          else on_device (text_embedding (diffusion_model bm))) ∧
  residency (swap_blocks_after_load host i c t e nb h d l f fl w).2 (model p) ImgEmb
  = Some (if e then offload_device p
          else on_device (img_emb (diffusion_model bm))).
Proof.
  intros Hp Hm Hc. unfold residency.
  rewrite (swap_WAN21_mem host i c t e nb h d l f fl w p bm Hp Hm Hc).
  cbn [models set_models]. rewrite lookup_insert_eq. cbn [mbind option_bind].
  by rewrite swap_placed_text_embedding, swap_placed_img_emb.
Qed.

Lemma swap_no_block_beyond i c t e nb h d l f fl w p bm b :
  patchers (mem w) !! h = Some p →
  models (mem w) !! model p = Some bm →
  isinstance_WAN21 (class_of bm) = true →
  (length (blocks (diffusion_model bm)) ≤ b)%nat →
  residency (swap_blocks_after_load host i c t e nb h d l f fl w).2 (model p) (Block b) = None.
Proof.
  intros Hp Hm Hc Hb. unfold residency.
  rewrite (swap_WAN21_mem host i c t e nb h d l f fl w p bm Hp Hm Hc).
  cbn [models set_models]. rewrite lookup_insert_eq. cbn [mbind option_bind].
  rewrite swap_placed_blocks.
  rewrite (lookup_ge_None_2 (place_from _ _ _ _ _)); [done|].
  by rewrite place_from_length.
Qed.

(** X1: after a run on a WAN21 model [text_embedding] is on the offload
    device when [offload_txt_emb] is set and where it was otherwise, and
    [img_emb] likewise with [offload_img_emb]: each flag governs its own
    sub-module. *)
Theorem auxiliary_modules_follow_their_flags i c t e nb h d l f fl w p bm :
  patchers (mem w) !! h = Some p →
  models (mem w) !! model p = Some bm →
  isinstance_WAN21 (class_of bm) = true →
  let r := swap_blocks_after_load host i c t e nb h d l f fl w in
  residency r.2 (model p) TextEmbedding
  = Some (if t then offload_device p
          else on_device (text_embedding (diffusion_model bm))) ∧
  residency r.2 (model p) ImgEmb
  = Some (if e then offload_device p
          else on_device (img_emb (diffusion_model bm))).
Proof.
  intros Hp Hm Hc r. subst r. by apply swap_aux_residency.
Qed.

(** X2: a run changes residency only: the base model keeps its class, the
    block sequence its length and order (the parameter sizes, block by
    block, are as before), and so do the two auxiliary sub-modules. *)
Theorem swap_keeps_the_block_sequence i c t e nb h d l f fl w p bm :
  patchers (mem w) !! h = Some p →
  models (mem w) !! model p = Some bm →
  isinstance_WAN21 (class_of bm) = true →
  let r := swap_blocks_after_load host i c t e nb h d l f fl w in
  ∃ bm',
    models (mem r.2) !! model p = Some bm' ∧
    class_of bm' = class_of bm ∧
    length (blocks (diffusion_model bm')) = length (blocks (diffusion_model bm)) ∧
    param_bytes <$> blocks (diffusion_model bm')
    = param_bytes <$> blocks (diffusion_model bm) ∧
    param_bytes (text_embedding (diffusion_model bm'))
    = param_bytes (text_embedding (diffusion_model bm)) ∧
    param_bytes (img_emb (diffusion_model bm'))
    = param_bytes (img_emb (diffusion_model bm)).
Proof.
  intros Hp Hm Hc r. subst r.
  rewrite (swap_WAN21_mem host i c t e nb h d l f fl w p bm Hp Hm Hc).
  cbn [models set_models]. exists (swap_placed c t e p bm).
  split; [apply lookup_insert_eq|].
  rewrite swap_placed_unfold.
  cbn [class_of diffusion_model blocks text_embedding img_emb].
  split; [done|]. split; [apply place_from_length|].
  split; [|by destruct t, e].
  apply list_eq. intros j. rewrite !list_lookup_fmap, place_from_lookup.
  case_decide; [|done]. by destruct (blocks (diffusion_model bm) !! j).
Qed.

(** X3: a run on a WAN21 model writes one object, the base model of the
    patcher it was given: every patcher (callback tables included), every
    other base model and the patch layer are as before. *)
Theorem swap_writes_one_base_model i c t e nb h d l f fl w p bm :
  patchers (mem w) !! h = Some p →
  models (mem w) !! model p = Some bm →
  isinstance_WAN21 (class_of bm) = true →
  let r := swap_blocks_after_load host i c t e nb h d l f fl w in
  patchers (mem r.2) = patchers (mem w) ∧
  patch_layer (mem r.2) = patch_layer (mem w) ∧
  dom (models (mem r.2)) = dom (models (mem w)) ∧
  (∀ m sub, m ≠ model p → residency r.2 m sub = residency w m sub) ∧
  (∀ m, m ≠ model p → models (mem r.2) !! m = models (mem w) !! m).
Proof.
  intros Hp Hm Hc r. subst r.
  rewrite (swap_WAN21_mem host i c t e nb h d l f fl w p bm Hp Hm Hc).
  cbn [patchers models patch_layer set_models]. repeat split.
  - rewrite dom_insert_L. apply subseteq_union_1_L, singleton_subseteq_l.
    by apply elem_of_dom_2 in Hm.
  - intros m sub Hne. unfold residency.
    rewrite (swap_WAN21_mem host i c t e nb h d l f fl w p bm Hp Hm Hc).
    cbn [models set_models]. by rewrite lookup_insert_ne.
  - intros m Hne. by rewrite lookup_insert_ne.
Qed.

(** X4: the store after a run does not depend on where the blocks were:
    running [swap_blocks_after_load] again with the same policy leaves the
    store as the first run left it. *)
Theorem swap_again_changes_nothing i c t e nb h d l f fl w p bm :
  patchers (mem w) !! h = Some p →
  models (mem w) !! model p = Some bm →
  isinstance_WAN21 (class_of bm) = true →
  let r1 := swap_blocks_after_load host i c t e nb h d l f fl w in
  let r2 := swap_blocks_after_load host i c t e nb h d l f fl r1.2 in
  mem r2.2 = mem r1.2.
Proof.
  intros Hp Hm Hc r1 r2. subst r1 r2.
  pose proof (swap_WAN21_mem host i c t e nb h d l f fl w p bm Hp Hm Hc) as H1.
  assert (Hp1 : patchers (mem (swap_blocks_after_load host i c t e nb h d l f fl w).2) !! h
                = Some p) by (by rewrite H1).
  assert (Hm1 : models (mem (swap_blocks_after_load host i c t e nb h d l f fl w).2) !! model p
                = Some (swap_placed c t e p bm)).
  { rewrite H1. cbn [models set_models]. apply lookup_insert_eq. }
  assert (Hc1 : isinstance_WAN21 (class_of (swap_placed c t e p bm)) = true).
  { by rewrite swap_placed_unfold. }
  rewrite (swap_WAN21_mem host i c t e nb h d l f fl _ p _ Hp1 Hm1 Hc1).
  rewrite swap_placed_idemp, H1. unfold set_models.
  cbn [patchers models patch_layer]. by rewrite insert_insert_eq.
Qed.

(** X5: in closed form, the block sequence after a run is the old one with
    its first [blocks_to_swap + 1] blocks on the offload device and the
    others on the load device; [min (blocks_to_swap + 1) N] blocks are sent
    to the offload device, none when [blocks_to_swap] is negative. *)
Theorem swap_offloads_a_prefix i c t e nb h d l f fl w p bm :
  patchers (mem w) !! h = Some p →
  models (mem w) !! model p = Some bm →
  isinstance_WAN21 (class_of bm) = true →
  let r := swap_blocks_after_load host i c t e nb h d l f fl w in
  let bs := blocks (diffusion_model bm) in
  let k := Z.to_nat (c + 1) in
  (blocks ∘ diffusion_model) <$> models (mem r.2) !! model p
  = Some ((to_device (offload_device p) <$> take k bs)
          ++ (to_device (load_device p) <$> drop k bs)) ∧
  length (take k bs) = (k `min` length bs)%nat ∧
  length (drop k bs) = (length bs - k)%nat.
Proof.
  intros Hp Hm Hc r bs k. subst r.
  rewrite (swap_WAN21_mem host i c t e nb h d l f fl w p bm Hp Hm Hc).
  cbn [models set_models]. rewrite lookup_insert_eq. cbn.
  rewrite swap_placed_blocks, place_from_split.
  split; [done|]. split; [apply length_take | apply length_drop].
Qed.

(** X6: the two ends of the range.  With a negative [blocks_to_swap] every
    block goes to the load device; with [blocks_to_swap] at N - 1 or
    above every block goes to the offload device, so all such values give
    the same placement. *)
Theorem swap_at_the_ends i c t e nb h d l f fl w p bm :
  patchers (mem w) !! h = Some p →
  models (mem w) !! model p = Some bm →
  isinstance_WAN21 (class_of bm) = true →
  let r := swap_blocks_after_load host i c t e nb h d l f fl w in
  let n := length (blocks (diffusion_model bm)) in
  ((c < 0)%Z →
   ∀ b, (b < n)%nat → residency r.2 (model p) (Block b) = Some (load_device p)) ∧
  ((Z.of_nat n - 1 ≤ c)%Z →
   ∀ b, (b < n)%nat → residency r.2 (model p) (Block b) = Some (offload_device p)) ∧
  (∀ c', (Z.of_nat n - 1 ≤ c)%Z → (Z.of_nat n - 1 ≤ c')%Z →
         mem (swap_blocks_after_load host i c' t e nb h d l f fl w).2 = mem r.2).
Proof.
  intros Hp Hm Hc r n. subst r n. repeat split.
  - intros Hneg b Hb. rewrite (swap_block_residency host _ _ _ _ _ _ _ _ _ _ _ _ bm) by done.
    rewrite target_dev_above; [done | lia].
  - intros Hbig b Hb. rewrite (swap_block_residency host _ _ _ _ _ _ _ _ _ _ _ _ bm) by done.
    rewrite target_dev_upto; [done | lia].
  - intros c' Hbig Hbig'.
    rewrite !(swap_WAN21_mem host i _ t e nb h d l f fl w p bm Hp Hm Hc).
    do 2 f_equal. rewrite !swap_placed_unfold. do 2 f_equal.
    apply list_eq. intros j. rewrite !place_from_lookup.
    case_decide as Hj; [|done]. rewrite !target_dev_upto by lia. done.
Qed.

(** X7: raising [blocks_to_swap] never brings a block back: a block that
    is on the offload device after a run with one cutoff is on it after a
    run with any larger cutoff. *)
Theorem swap_is_monotone i c1 c2 t e nb h d l f fl w p bm b :
  patchers (mem w) !! h = Some p →
  models (mem w) !! model p = Some bm →
  isinstance_WAN21 (class_of bm) = true →
  (c1 ≤ c2)%Z →
  residency (swap_blocks_after_load host i c1 t e nb h d l f fl w).2 (model p) (Block b)
  = Some (offload_device p) →
  residency (swap_blocks_after_load host i c2 t e nb h d l f fl w).2 (model p) (Block b)
  = Some (offload_device p).
Proof.
  intros Hp Hm Hc Hle H1.
  destruct (decide (b < length (blocks (diffusion_model bm)))%nat) as [Hb|Hb].
  - rewrite (swap_block_residency host _ _ _ _ _ _ _ _ _ _ _ _ bm) in H1 by done.
    rewrite (swap_block_residency host _ _ _ _ _ _ _ _ _ _ _ _ bm) by done.
    destruct (decide (Z.of_nat b ≤ c1)%Z) as [Hin|Hout].
    + rewrite target_dev_upto; [done | lia].
    + rewrite target_dev_above in H1 by lia.
      unfold target_dev. by destruct (Z.of_nat b >? c2)%Z.
  - rewrite (swap_no_block_beyond _ _ _ _ _ _ _ _ _ _ _ _ bm) in H1 by (done || lia).
    done.
Qed.

(** X8: no value that [INPUT_TYPES] admits for [blocks_to_swap] (0 to 40)
    keeps the whole network on the load device: block 0 of a WAN21 model
    that has blocks is on the offload device after every run, and a model
    of at most 41 blocks is offloaded whole at the maximum. *)
Theorem admitted_cutoffs_offload_block_0 i c t e nb h d l f fl w p bm :
  patchers (mem w) !! h = Some p →
  models (mem w) !! model p = Some bm →
  isinstance_WAN21 (class_of bm) = true →
  WanVideoBlockSwap.admits "blocks_to_swap" c →
  let r := swap_blocks_after_load host i c t e nb h d l f fl w in
  let n := length (blocks (diffusion_model bm)) in
  ((0 < n)%nat → residency r.2 (model p) (Block 0) = Some (offload_device p)) ∧
  (c = 40%Z → (n ≤ 41)%nat →
   ∀ b, (b < n)%nat → residency r.2 (model p) (Block b) = Some (offload_device p)).
Proof.
  intros Hp Hm Hc (df & lo & hi & st & Hspec & Hrange) r n. subst r n.
  cbn in Hspec. injection Hspec as <- <- <- <-. split.
  - intros Hn. rewrite (swap_block_residency host _ _ _ _ _ _ _ _ _ _ _ _ bm) by done.
    rewrite target_dev_upto; [done | lia].
  - intros -> Hn b Hb. rewrite (swap_block_residency host _ _ _ _ _ _ _ _ _ _ _ _ bm) by done.
    rewrite target_dev_upto; [done | lia].
Qed.

End Placement.

(** ** When the reclamation pass fails *)

Section ReclamationFailure.
Context {PL AL : Type} (host : host_ops PL AL).
Implicit Types (w : world PL AL) (p : ModelPatcher) (bm : BaseModel).

Lemma tail_cache_raises ev w ex a :
  soft_empty_cache host (allocator w) = (Raise ex, a) →
  (call_soft_empty_cache host ;; call_gc_collect host ;; emit ev) w
  = (Raise ex, {| mem := mem w; allocator := a; trace := trace w ++ [SoftEmptyCache] |}).
Proof. intros H. by rewrite bind_run, call_soft_empty_cache_run, H. Qed.

Lemma tail_gc_raises ev w ex a1 a2 :
  soft_empty_cache host (allocator w) = (Ok tt, a1) →
  gc_collect host a1 = (Raise ex, a2) →
  (call_soft_empty_cache host ;; call_gc_collect host ;; emit ev) w
  = (Raise ex,
     {| mem := mem w; allocator := a2; trace := trace w ++ [SoftEmptyCache; GcCollect] |}).
Proof.
  intros H1 H2. rewrite bind_run, call_soft_empty_cache_run, H1.
  rewrite bind_run, call_gc_collect_run. cbn [allocator]. rewrite H2.
  cbn [mem trace]. by rewrite <- app_assoc.
Qed.

(** X9: [swap_blocks_after_load] has no handler around the reclamation
    pass.  An exception of [soft_empty_cache] leaves the callback after all
    transfers were made: [gc.collect] is not called and the END line is not
    logged.  An exception of [gc.collect] leaves it likewise, after the
    cache was emptied. *)
Theorem swap_does_not_catch_reclamation_errors i c t e nb h d l f fl w p bm ex :
  patchers (mem w) !! h = Some p →
  models (mem w) !! model p = Some bm →
  isinstance_WAN21 (class_of bm) = true →
  let r := swap_blocks_after_load host i c t e nb h d l f fl w in
  let pre := swap_events i c t e nb h p (length (blocks (diffusion_model bm))) in
  (∀ a, soft_empty_cache host (allocator w) = (Raise ex, a) →
        r.1 = Raise ex ∧
        trace r.2 = trace w ++ pre ++ [SoftEmptyCache] ∧
        allocator r.2 = a ∧
        ∀ b, (b < length (blocks (diffusion_model bm)))%nat →
             residency r.2 (model p) (Block b)
             = Some (if (Z.of_nat b >? c)%Z then load_device p else offload_device p)) ∧
  (∀ a1 a2, soft_empty_cache host (allocator w) = (Ok tt, a1) →
            gc_collect host a1 = (Raise ex, a2) →
            r.1 = Raise ex ∧
            trace r.2 = trace w ++ pre ++ [SoftEmptyCache; GcCollect] ∧
            allocator r.2 = a2).
Proof.
  intros Hp Hm Hc r pre. subst pre. split.
  - intros a Hs. split; [|split; [|split]].
    + subst r. rewrite (swap_run_WAN21 host i c t e nb h d l f fl w p bm Hp Hm Hc).
      by erewrite tail_cache_raises.
    + subst r. rewrite (swap_run_WAN21 host i c t e nb h d l f fl w p bm Hp Hm Hc).
      erewrite tail_cache_raises by exact Hs. cbn [snd trace]. by rewrite <- app_assoc.
    + subst r. rewrite (swap_run_WAN21 host i c t e nb h d l f fl w p bm Hp Hm Hc).
      by erewrite tail_cache_raises.
    + intros b Hb. subst r.
      by rewrite (swap_block_residency host _ _ _ _ _ _ _ _ _ _ _ _ bm).
  - intros a1 a2 Hs Hg. subst r.
    rewrite (swap_run_WAN21 host i c t e nb h d l f fl w p bm Hp Hm Hc).
    erewrite tail_gc_raises by (exact Hs || exact Hg).
    cbn [fst snd trace allocator]. by rewrite <- app_assoc.
Qed.

(** X10: [cleanup_after_sampling] has no handler around the reclamation
    pass either.  When unpatching succeeded and [soft_empty_cache] raises,
    the exception leaves the callback with the model unpatched (the store
    is the one [unpatch_model] left), [gc.collect] not called and the END
    line not logged; when [gc.collect] raises, likewise after the cache was
    emptied. *)
Theorem cleanup_does_not_catch_reclamation_errors i h w p ms pl ex :
  patchers (mem w) !! h = Some p →
  unpatch_model host h p (offload_device p) true (models (mem w)) (patch_layer (mem w))
  = (Ok tt, (ms, pl)) →
  let r := cleanup_after_sampling host i h w in
  let pre := [cleanup_start i h; UnpatchModel h (offload_device p) true] in
  (∀ a, soft_empty_cache host (allocator w) = (Raise ex, a) →
        r.1 = Raise ex ∧
        trace r.2 = trace w ++ pre ++ [SoftEmptyCache] ∧
        models (mem r.2) = ms ∧ patch_layer (mem r.2) = pl) ∧
  (∀ a1 a2, soft_empty_cache host (allocator w) = (Ok tt, a1) →
            gc_collect host a1 = (Raise ex, a2) →
            r.1 = Raise ex ∧
            trace r.2 = trace w ++ pre ++ [SoftEmptyCache; GcCollect] ∧
            models (mem r.2) = ms ∧ patch_layer (mem r.2) = pl).
Proof.
  intros Hp Hu r pre. subst r pre.
  rewrite (cleanup_run host i h w p Hp), Hu. cbv beta iota zeta. split.
  - intros a Hs. erewrite tail_cache_raises by exact Hs.
    cbn [fst snd mem trace models patch_layer]. by rewrite <- app_assoc.
  - intros a1 a2 Hs Hg. erewrite tail_gc_raises by (exact Hs || exact Hg).
    cbn [fst snd mem trace models patch_layer]. by rewrite <- app_assoc.
Qed.

End ReclamationFailure.

(** ** The order of the transfers *)

Section Order.
Context {PL AL : Type} (host : host_ops PL AL).
Implicit Types (w : world PL AL) (p : ModelPatcher) (bm : BaseModel).

Lemma filter_all {A} (P : A → Prop) `{∀ x, Decision (P x)} (l : list A) :
  Forall P l → filter P l = l.
Proof.
  induction 1 as [|x l Hx _ IH]; [done|].
  by rewrite filter_cons_True, IH.
Qed.

Lemma filter_none {A} (P : A → Prop) `{∀ x, Decision (P x)} (l : list A) :
  Forall (λ x, ¬ P x) l → filter P l = [].
Proof.
  induction 1 as [|x l Hx _ IH]; [done|].
  by rewrite filter_cons_False.
Qed.

Lemma filter_transfer_aux (flag : bool) p sub (name : string) nb :
  filter (λ ev, is_transfer ev = true) (aux_events flag p sub name nb)
  = if flag then [ModuleTo (model p) sub (offload_device p) nb] else [].
Proof.
  unfold aux_events. destruct flag; [|done].
  rewrite filter_cons_False by done. by rewrite filter_cons_True.
Qed.

(** X11: the transfers of a run on a WAN21 model are made in this order:
    the blocks by rising index, each once, then [text_embedding] if its
    flag is set, then [img_emb] if its flag is set; nothing else is
    moved. *)
Theorem transfers_go_in_index_order i c t e nb h d l f fl w p bm :
  patchers (mem w) !! h = Some p →
  models (mem w) !! model p = Some bm →
  isinstance_WAN21 (class_of bm) = true →
  let r := swap_blocks_after_load host i c t e nb h d l f fl w in
  ∃ evs,
    trace r.2 = trace w ++ evs ∧
    filter (λ ev, is_transfer ev = true) evs
    = map (λ b, ModuleTo (model p) (Block b)
                  (if (Z.of_nat b >? c)%Z then load_device p else offload_device p) false)
          (seq 0 (length (blocks (diffusion_model bm))))
      ++ (if t then [ModuleTo (model p) TextEmbedding (offload_device p) nb] else [])
      ++ (if e then [ModuleTo (model p) ImgEmb (offload_device p) nb] else []).
Proof.
  intros Hp Hm Hc r. subst r.
  destruct (swap_WAN21_trace host i c t e nb h d l f fl w p bm Hp Hm Hc)
    as (tl & Htr & Htl).
  eexists. split; [exact Htr|].
  rewrite filter_app. rewrite (filter_none _ tl); last first.
  { eapply Forall_impl; [exact Htl|]. intros ev Hev.
    rewrite !elem_of_cons, elem_of_nil in Hev.
    destruct Hev as [->|[->|[->|[]]]]; done. }
  rewrite app_nil_r. unfold swap_events.
  rewrite !filter_app, !filter_transfer_aux.
  rewrite filter_cons_False by done. rewrite filter_cons_False by done.
  rewrite filter_nil. cbn [app]. f_equal.
  apply filter_all. apply Forall_forall. intros ev Hev.
  apply elem_of_block_events in Hev as (b & _ & ->). done.
Qed.

End Order.

(** ** From configuration to placement *)

Section Configured.
Context {PL AL : Type} (host : host_ops PL AL).
Implicit Types (w : world PL AL) (p : ModelPatcher) (bm : BaseModel).

(** X12: two nodes in a row.  When the patcher returned by one
    [set_callback] is given to a second one, the last clone carries the
    closures of both nodes, the first node's before the second's; nothing
    is overwritten, also when both calls come from one node instance and
    so use the same keys.  The two earlier patchers stay as they were. *)
Theorem chained_nodes_keep_both_registrations
    self1 c1 t1 e1 nb1 self2 c2 t2 e2 nb2 m w p :
  patchers (mem w) !! m = Some p →
  let r1 := set_callback self1 m c1 t1 e1 nb1 w in
  ∃ h1 h2 p1 p2,
    r1.1 = Ok h1 ∧
    (set_callback self2 h1 c2 t2 e2 nb2 r1.2).1 = Ok h2 ∧
    h2 ≠ h1 ∧ h2 ≠ m ∧ h1 ≠ m ∧
    let w2 := (set_callback self2 h1 c2 t2 e2 nb2 r1.2).2 in
    patchers (mem w2) !! m = Some p ∧
    patchers (mem w2) !! h1 = Some p1 ∧
    patchers (mem w2) !! h2 = Some p2 ∧
    (∀ ct k, callbacks_at p1 ct k
             = callbacks_at p ct k ++ registered_by self1 c1 t1 e1 nb1 ct k) ∧
    (∀ ct k, callbacks_at p2 ct k
             = callbacks_at p ct k ++ registered_by self1 c1 t1 e1 nb1 ct k
                 ++ registered_by self2 c2 t2 e2 nb2 ct k).
Proof.
  intros Hp r1. subst r1.
  pose proof (set_callback_run self1 m c1 t1 e1 nb1 w p Hp) as H1. cbv zeta in H1.
  set (h1 := fresh (dom (patchers (mem w)))) in *.
  set (p1 := register CallbacksMP.ON_CLEANUP (cleanup_key self1)
               (cleanup_after_sampling_cb self1)
               (register CallbacksMP.ON_LOAD (swap_key self1)
                  (swap_blocks_after_load_cb self1 c1 t1 e1 nb1) p)) in *.
  lazymatch type of H1 with _ = (_, ?w1) => set (w1' := w1) in * end.
  assert (Hp1 : patchers (mem w1') !! h1 = Some p1) by apply lookup_insert_eq.
  pose proof (set_callback_run self2 h1 c2 t2 e2 nb2 w1' p1 Hp1) as H2. cbv zeta in H2.
  set (h2 := fresh (dom (patchers (mem w1')))) in *.
  assert (Hf1 : h1 ∉ dom (patchers (mem w))) by apply is_fresh.
  assert (Hf2 : h2 ∉ dom (patchers (mem w1'))) by apply is_fresh.
  assert (Hm : m ∈ dom (patchers (mem w))) by (by apply elem_of_dom_2 in Hp).
  assert (Hd : dom (patchers (mem w1')) = {[h1]} ∪ dom (patchers (mem w))).
  { subst w1'. cbn [mem patchers set_patchers]. apply dom_insert_L. }
  rewrite Hd in Hf2. apply not_elem_of_union in Hf2 as [Hf2 Hf2'].
  apply not_elem_of_singleton in Hf2.
  assert (h2 ≠ m) by congruence. assert (h1 ≠ m) by congruence.
  exists h1, h2, p1,
    (register CallbacksMP.ON_CLEANUP (cleanup_key self2)
       (cleanup_after_sampling_cb self2)
       (register CallbacksMP.ON_LOAD (swap_key self2)
          (swap_blocks_after_load_cb self2 c2 t2 e2 nb2) p1)).
  rewrite H1. cbn [fst snd]. rewrite H2. cbv zeta. cbn [fst snd].
  split; [done|]. split; [done|]. split; [done|]. split; [done|]. split; [done|].
  cbn [mem patchers set_patchers]. subst w1'. cbn [mem patchers set_patchers].
  split; [by rewrite !lookup_insert_ne|].
  split; [rewrite lookup_insert_ne by done; apply lookup_insert_eq|].
  split; [apply lookup_insert_eq|].
  split.
  - intros ct k. subst p1. apply registered_callbacks.
  - intros ct k. rewrite registered_callbacks. subst p1.
    rewrite registered_callbacks. by rewrite <- app_assoc.
Qed.

(** X13: the policy given to [set_callback] is the one the blocks get.
    When the host fires the closure registered under the node's [on_load]
    key on the returned patcher, the blocks of the base model, which the
    patcher passed in refers to as well, are split at [blocks_to_swap],
    [text_embedding] follows [offload_txt_emb] and [img_emb] follows
    [offload_img_emb]. *)
Theorem configured_policy_reaches_the_model self m c t e nb d l f fl w p bm :
  patchers (mem w) !! m = Some p →
  models (mem w) !! model p = Some bm →
  isinstance_WAN21 (class_of bm) = true →
  callbacks_at p CallbacksMP.ON_LOAD (swap_key self) = [] →
  let r := set_callback self m c t e nb w in
  ∃ h' p' cb,
    r.1 = Ok h' ∧
    patchers (mem r.2) !! h' = Some p' ∧
    callbacks_at p' CallbacksMP.ON_LOAD (swap_key self) = [cb] ∧
    let r' := fire_on_load host cb h' d l f fl r.2 in
    (∀ b, (b < length (blocks (diffusion_model bm)))%nat →
          residency r'.2 (model p) (Block b)
          = Some (if (Z.of_nat b >? c)%Z then load_device p else offload_device p)) ∧
    residency r'.2 (model p) TextEmbedding
    = Some (if t then offload_device p
            else on_device (text_embedding (diffusion_model bm))) ∧
    residency r'.2 (model p) ImgEmb
    = Some (if e then offload_device p
            else on_device (img_emb (diffusion_model bm))) ∧
    patchers (mem r'.2) !! m = Some p.
Proof.
  intros Hp Hm Hc Hnone r. subst r.
  pose proof (set_callback_run self m c t e nb w p Hp) as H1. cbv zeta in H1.
  set (h' := fresh (dom (patchers (mem w)))) in *.
  set (p' := register CallbacksMP.ON_CLEANUP (cleanup_key self)
               (cleanup_after_sampling_cb self)
               (register CallbacksMP.ON_LOAD (swap_key self)
                  (swap_blocks_after_load_cb self c t e nb) p)) in *.
  lazymatch type of H1 with _ = (_, ?w1) => set (w1' := w1) in * end.
  assert (Hf : h' ≠ m).
  { intros Heq. apply elem_of_dom_2 in Hp. rewrite <- Heq in Hp.
    by apply (is_fresh (dom (patchers (mem w)))). }
  assert (Hp' : patchers (mem w1') !! h' = Some p') by apply lookup_insert_eq.
  assert (Hm' : models (mem w1') !! model p' = Some bm) by exact Hm.
  exists h', p', (swap_blocks_after_load_cb self c t e nb).
  rewrite H1. cbn [fst snd].
  split; [done|]. split; [exact Hp'|]. split.
  { subst p'. rewrite registered_callbacks, Hnone. by rewrite decide_True. }
  cbn [fire_on_load]. split; [|split; [|split]].
  - intros b Hb.
    exact (swap_block_residency host self c t e nb h' d l f fl w1' p' bm b Hp' Hm' Hc Hb).
  - exact (proj1 (swap_aux_residency host self c t e nb h' d l f fl w1' p' bm Hp' Hm' Hc)).
  - exact (proj2 (swap_aux_residency host self c t e nb h' d l f fl w1' p' bm Hp' Hm' Hc)).
  - rewrite (swap_WAN21_mem host self c t e nb h' d l f fl w1' p' bm Hp' Hm' Hc).
    cbn [patchers set_models].
    subst w1'. cbn [mem patchers set_patchers]. by rewrite lookup_insert_ne.
Qed.

End Configured.

(** ** The import-time patches *)

Section Patches.
Import Compat.
Implicit Types (s : importing) (ns : gmap string attr).

Lemma hasattr_None ns name : ns !! name = None → hasattr ns name = false.
Proof. intros H. unfold hasattr. rewrite H. apply bool_decide_eq_false. by intros [? ?]. Qed.

Lemma hasattr_Some ns name a : ns !! name = Some a → hasattr ns name = true.
Proof. intros H. unfold hasattr. rewrite H. apply bool_decide_eq_true. eauto. Qed.

Lemma patch_load_model_gpu_namespace s name :
  namespace (patch_load_model_gpu s) !! name
  = if decide (name = "load_model_gpu")
    then Some (default load_model_gpu_wrapper (namespace s !! "load_model_gpu"))
    else namespace s !! name.
Proof.
  unfold patch_load_model_gpu.
  destruct (namespace s !! "load_model_gpu") as [a|] eqn:Hl.
  - rewrite (hasattr_Some _ _ _ Hl). cbn. case_decide as Hn; [by subst|done].
  - rewrite (hasattr_None _ _ Hl). cbn. case_decide as Hn.
    + subst. apply lookup_insert_eq.
    + by rewrite lookup_insert_ne.
Qed.

Lemma patch_cleanup_models_gc_run s :
  patch_cleanup_models_gc s
  = match namespace s !! "cleanup_models_gc", namespace s !! "cleanup_models" with
    | Some _, _ => (Ok tt, s)
    | None, Some a =>
        (Ok tt,
         setattr "cleanup_models_gc" a
           (warn "Patching 'comfy.model_management.cleanup_models_gc' not found. Using 'cleanup_models' as a fallback." s))
    | None, None =>
        (Raise (Exception "module 'comfy.model_management' has no attribute 'cleanup_models'"),
         warn "Patching 'comfy.model_management.cleanup_models_gc' not found. Using 'cleanup_models' as a fallback." s)
    end.
Proof.
  unfold patch_cleanup_models_gc.
  destruct (namespace s !! "cleanup_models_gc") as [a|] eqn:Hg.
  - by rewrite (hasattr_Some _ _ _ Hg).
  - rewrite (hasattr_None _ _ Hg). cbn [negb]. cbv zeta. unfold getattr.
    cbn [namespace warn]. by destruct (namespace s !! "cleanup_models").
Qed.

Lemma patches_namespace s s' name :
  version_compatibility_patches s = (Ok tt, s') →
  namespace s' !! name
  = if decide (name = "load_model_gpu")
    then Some (default load_model_gpu_wrapper (namespace s !! "load_model_gpu"))
    else if decide (name = "cleanup_models_gc")
         then match namespace s !! "cleanup_models_gc" with
              | Some g => Some g
              | None => namespace s !! "cleanup_models"
              end
         else namespace s !! name.
Proof.
  unfold version_compatibility_patches. rewrite patch_cleanup_models_gc_run.
  rewrite !patch_load_model_gpu_namespace.
  rewrite (decide_False (P := "cleanup_models_gc" = _)) by done.
  rewrite (decide_False (P := "cleanup_models" = _)) by done.
  destruct (namespace s !! "cleanup_models_gc") as [g|] eqn:Hg.
  - intros [= <-]. rewrite patch_load_model_gpu_namespace.
    case_decide as H1; [done|]. case_decide as H2; [by subst|done].
  - destruct (namespace s !! "cleanup_models") as [a|] eqn:Hc; [|done].
    intros [= <-]. cbn [namespace setattr warn].
    case_decide as H1.
    + subst. rewrite lookup_insert_ne by done.
      by rewrite patch_load_model_gpu_namespace, decide_True.
    + case_decide as H2.
      * subst. apply lookup_insert_eq.
      * rewrite lookup_insert_ne by done.
        by rewrite patch_load_model_gpu_namespace, decide_False.
Qed.

Lemma patches_ok_has_fallback s s' :
  version_compatibility_patches s = (Ok tt, s') →
  namespace s !! "cleanup_models_gc" = None →
  is_Some (namespace s !! "cleanup_models").
Proof.
  unfold version_compatibility_patches. rewrite patch_cleanup_models_gc_run.
  rewrite !patch_load_model_gpu_namespace.
  rewrite (decide_False (P := "cleanup_models_gc" = _)) by done.
  rewrite (decide_False (P := "cleanup_models" = _)) by done.
  intros Hrun Hg. rewrite Hg in Hrun.
  destruct (namespace s !! "cleanup_models") as [a|]; [eauto | done].
Qed.

(** X14: when the import-time patches go through, the module has both
    [load_model_gpu] and [cleanup_models_gc].  An attribute that was there
    keeps its value: the patches fill in what is missing and overwrite
    nothing, and touch no other name.  A missing [cleanup_models_gc]
    becomes the object [cleanup_models] is bound to, a missing
    [load_model_gpu] the wrapper. *)
Theorem patches_fill_in_what_is_missing s s' :
  version_compatibility_patches s = (Ok tt, s') →
  is_Some (namespace s' !! "load_model_gpu") ∧
  is_Some (namespace s' !! "cleanup_models_gc") ∧
  (∀ name a, namespace s !! name = Some a → namespace s' !! name = Some a) ∧
  (∀ name, name ≠ "load_model_gpu" → name ≠ "cleanup_models_gc" →
           namespace s' !! name = namespace s !! name) ∧
  (namespace s !! "load_model_gpu" = None →
   namespace s' !! "load_model_gpu" = Some load_model_gpu_wrapper) ∧
  (namespace s !! "cleanup_models_gc" = None →
   namespace s' !! "cleanup_models_gc" = namespace s !! "cleanup_models").
Proof.
  intros Hrun. pose proof (λ name, patches_namespace s s' name Hrun) as Hns.
  pose proof (patches_ok_has_fallback s s' Hrun) as Hfb.
  split; [|split; [|split; [|split; [|split]]]].
  - rewrite Hns, decide_True by done. eauto.
  - rewrite Hns, decide_False by done. rewrite decide_True by done.
    destruct (namespace s !! "cleanup_models_gc"); [eauto|]. by apply Hfb.
  - intros name a Ha. rewrite Hns.
    case_decide as H1; [subst; by rewrite Ha|].
    case_decide as H2; [subst; by rewrite Ha|]. done.
  - intros name H1 H2. rewrite Hns. by rewrite !decide_False.
  - intros Hl. rewrite Hns, decide_True by done. by rewrite Hl.
  - intros Hg. rewrite Hns, decide_False by done. rewrite decide_True by done.
    by rewrite Hg.
Qed.

(** X15: the import fails in one case only, when the module has neither
    [cleanup_models_gc] nor [cleanup_models]: reading the fallback raises
    an attribute error.  By then the warning is logged and the first patch
    is in place, so the module is left with [load_model_gpu] and without
    [cleanup_models_gc].  In every other case the patches end normally. *)
Theorem patches_fail_without_a_fallback s :
  let r := version_compatibility_patches s in
  ((∃ e, r.1 = Raise e) ↔
   namespace s !! "cleanup_models_gc" = None ∧ namespace s !! "cleanup_models" = None) ∧
  ((∃ e, r.1 = Raise e) →
   r.1 = Raise (Exception "module 'comfy.model_management' has no attribute 'cleanup_models'") ∧
   is_Some (namespace r.2 !! "load_model_gpu") ∧
   namespace r.2 !! "cleanup_models_gc" = None ∧
   last (warnings r.2)
   = Some (Log WARNING "Patching 'comfy.model_management.cleanup_models_gc' not found. Using 'cleanup_models' as a fallback.")) ∧
  ((∀ e, r.1 ≠ Raise e) → r.1 = Ok tt).
Proof.
  cbv zeta. unfold version_compatibility_patches. rewrite patch_cleanup_models_gc_run.
  rewrite !patch_load_model_gpu_namespace.
  rewrite (decide_False (P := "cleanup_models_gc" = _)) by done.
  rewrite (decide_False (P := "cleanup_models" = _)) by done.
  destruct (namespace s !! "cleanup_models_gc") as [g|] eqn:Hg.
  { cbn [fst snd]. split; [|split]; [|by intros [? ?]|done].
    split; [by intros [? ?] | by intros [? _]]. }
  destruct (namespace s !! "cleanup_models") as [a|] eqn:Hc.
  { cbn [fst snd]. split; [|split]; [|by intros [? ?]|done].
    split; [by intros [? ?] | by intros [_ ?]]. }
  cbn [fst snd namespace warn warnings]. split; [|split].
  - split; [done | eauto].
  - intros _. split; [done|].
    rewrite !patch_load_model_gpu_namespace.
    rewrite decide_True by done. rewrite decide_False by done.
    split; [eauto|]. split; [done|]. apply last_snoc.
  - intros Hno. by destruct (Hno _ eq_refl).
Qed.

(** X16: patching twice is patching once.  On the module the patches left
    they change nothing and log nothing; each of the two warnings is
    logged exactly when its attribute was missing. *)
Theorem patches_are_idempotent s s' :
  version_compatibility_patches s = (Ok tt, s') →
  version_compatibility_patches s' = (Ok tt, s') ∧
  warnings s' =
    warnings s
    ++ match namespace s !! "load_model_gpu" with
       | Some _ => []
       | None => [Log WARNING "Patching 'comfy.model_management.load_model_gpu' not found. Creating a wrapper for 'load_models_gpu'."]
       end
    ++ match namespace s !! "cleanup_models_gc" with
       | Some _ => []
       | None => [Log WARNING "Patching 'comfy.model_management.cleanup_models_gc' not found. Using 'cleanup_models' as a fallback."]
       end.
Proof.
  intros Hrun.
  assert (Hl : ∃ l, namespace s' !! "load_model_gpu" = Some l).
  { rewrite (patches_namespace s s' _ Hrun), decide_True by done. eauto. }
  assert (Hg : ∃ g, namespace s' !! "cleanup_models_gc" = Some g).
  { rewrite (patches_namespace s s' _ Hrun), decide_False by done.
    rewrite decide_True by done.
    destruct (namespace s !! "cleanup_models_gc") eqn:Hg0; [eauto|].
    by apply (patches_ok_has_fallback s s' Hrun). }
  destruct Hl as [l Hl]. destruct Hg as [g Hg].
  split.
  - unfold version_compatibility_patches, patch_load_model_gpu.
    rewrite (hasattr_Some _ _ _ Hl). cbn [negb].
    by rewrite patch_cleanup_models_gc_run, Hg.
  - revert Hrun. unfold version_compatibility_patches.
    rewrite patch_cleanup_models_gc_run.
    rewrite !patch_load_model_gpu_namespace.
    rewrite (decide_False (P := "cleanup_models_gc" = _)) by done.
    rewrite (decide_False (P := "cleanup_models" = _)) by done.
    unfold patch_load_model_gpu.
    destruct (namespace s !! "load_model_gpu") as [l0|] eqn:Hl0;
      [rewrite (hasattr_Some _ _ _ Hl0) | rewrite (hasattr_None _ _ Hl0)];
      cbn [negb];
      destruct (namespace s !! "cleanup_models_gc") as [g0|];
      try destruct (namespace s !! "cleanup_models") as [c0|];
      intros [= <-]; cbn [warnings setattr warn]; by rewrite ?app_nil_r, <- ?app_assoc.
Qed.

(** X17: what calling the patched module gives.  Where [load_model_gpu]
    was missing, a call [load_model_gpu(model)] calls the host's
    [load_models_gpu] with the one-element list [[model]]; the wrapper
    looks [load_models_gpu] up when it is called, so a module without it
    imports without error and fails at the call.  Where [load_model_gpu]
    was there, the host's own function is called with [model]. *)
Theorem patched_load_model_gpu_wraps_load_models_gpu s s' (model : Z) :
  version_compatibility_patches s = (Ok tt, s') →
  (∀ q, namespace s !! "load_model_gpu" = None →
        namespace s !! "load_models_gpu" = Some (host_object q) →
        call_load_model_gpu (namespace s') model = Ok (q, several [model])) ∧
  (namespace s !! "load_model_gpu" = None →
   namespace s !! "load_models_gpu" = None →
   call_load_model_gpu (namespace s') model
   = Raise (Exception "module 'comfy.model_management' has no attribute 'load_models_gpu'")) ∧
  (∀ q, namespace s !! "load_model_gpu" = Some (host_object q) →
        call_load_model_gpu (namespace s') model = Ok (q, one model)).
Proof.
  intros Hrun. pose proof (λ name, patches_namespace s s' name Hrun) as Hns.
  unfold call_load_model_gpu, getattr. rewrite !Hns.
  rewrite decide_True by done.
  rewrite (decide_False (P := "load_models_gpu" = "load_model_gpu")) by done.
  rewrite (decide_False (P := "load_models_gpu" = "cleanup_models_gc")) by done.
  split; [|split].
  - intros q Hl Hm. by rewrite Hl, Hm.
  - intros Hl Hm. by rewrite Hl, Hm.
  - intros q Hl. by rewrite Hl.
Qed.

End Patches.

(** ** These theorems at work on the reference store *)

Lemma auxiliary_modules_follow_their_flags_witness :
  let w := Reference.store false in
  let r := swap_blocks_after_load Reference.host 99 1 true false true
             1 "cuda:0" 0 false false w in
  patchers (mem w) !! 1%Z = Some (Reference.patcher 7) ∧
  residency r.2 7 TextEmbedding = Some "cpu" ∧
  residency r.2 7 ImgEmb = Some "cuda:0".
Proof.
  cbv zeta. split; [reflexivity|].
  exact (auxiliary_modules_follow_their_flags Reference.host 99 1 true false true
           1 "cuda:0" 0 false false (Reference.store false)
           (Reference.patcher 7) (Reference.net WAN21 3) eq_refl eq_refl eq_refl).
Defined.

Lemma swap_keeps_the_block_sequence_witness :
  let w := Reference.store false in
  let r := swap_blocks_after_load Reference.host 99 1 true false true
             1 "cuda:0" 0 false false w in
  patchers (mem w) !! 1%Z = Some (Reference.patcher 7) ∧
  ∃ bm', models (mem r.2) !! 7%Z = Some bm' ∧
         class_of bm' = WAN21 ∧
         length (blocks (diffusion_model bm')) = 3%nat ∧
         param_bytes <$> blocks (diffusion_model bm') = [1024; 1024; 1024]%N.
Proof.
  cbv zeta. split; [reflexivity|].
  destruct (swap_keeps_the_block_sequence Reference.host 99 1 true false true
              1 "cuda:0" 0 false false (Reference.store false)
              (Reference.patcher 7) (Reference.net WAN21 3) eq_refl eq_refl eq_refl)
    as (bm' & Hbm & Hcls & Hlen & Hbytes & _).
  exists bm'. split; [exact Hbm|]. split; [exact Hcls|]. split; [exact Hlen|]. exact Hbytes.
Defined.

Lemma swap_writes_one_base_model_witness :
  let w := Reference.store false in
  let r := swap_blocks_after_load Reference.host 99 1 true true true
             1 "cuda:0" 0 false false w in
  patchers (mem w) !! 1%Z = Some (Reference.patcher 7) ∧
  patchers (mem r.2) = patchers (mem w) ∧
  models (mem r.2) !! 8%Z = Some (Reference.net (other_class "Flux") 3).
Proof.
  cbv zeta. split; [reflexivity|].
  destruct (swap_writes_one_base_model Reference.host 99 1 true true true
              1 "cuda:0" 0 false false (Reference.store false)
              (Reference.patcher 7) (Reference.net WAN21 3) eq_refl eq_refl eq_refl)
    as (Hps & _ & _ & _ & Hother).
  split; [exact Hps|]. rewrite (Hother 8%Z); [reflexivity | discriminate].
Defined.

Lemma swap_again_changes_nothing_witness :
  let w := Reference.store false in
  let r1 := swap_blocks_after_load Reference.host 99 1 true false true
              1 "cuda:0" 0 false false w in
  let r2 := swap_blocks_after_load Reference.host 99 1 true false true
              1 "cuda:0" 0 false false r1.2 in
  models (mem w) !! 7%Z = Some (Reference.net WAN21 3) ∧
  mem r2.2 = mem r1.2 ∧
  mem r1.2 ≠ mem w.
Proof.
  cbv zeta. split; [reflexivity|]. split.
  - exact (swap_again_changes_nothing Reference.host 99 1 true false true
             1 "cuda:0" 0 false false (Reference.store false)
             (Reference.patcher 7) (Reference.net WAN21 3) eq_refl eq_refl eq_refl).
  - intros Heq. apply (f_equal (λ hp, models hp !! 7%Z)) in Heq.
    vm_compute in Heq. discriminate Heq.
Defined.

Lemma swap_offloads_a_prefix_witness :
  let w := Reference.store false in
  let r := swap_blocks_after_load Reference.host 99 1 false false false
             1 "cuda:0" 0 false false w in
  patchers (mem w) !! 1%Z = Some (Reference.patcher 7) ∧
  (λ bm', on_device <$> blocks (diffusion_model bm')) <$> models (mem r.2) !! 7%Z
  = Some ["cpu"; "cpu"; "cuda:0"].
Proof.
  cbv zeta. split; [reflexivity|].
  destruct (swap_offloads_a_prefix Reference.host 99 1 false false false
              1 "cuda:0" 0 false false (Reference.store false)
              (Reference.patcher 7) (Reference.net WAN21 3) eq_refl eq_refl eq_refl)
    as (Hsplit & _).
  cbn [model Reference.patcher] in Hsplit.
  destruct (models (mem _) !! 7%Z) as [bm'|]; [|discriminate Hsplit].
  cbn in Hsplit. injection Hsplit as Hsplit. cbn. rewrite Hsplit. reflexivity.
Defined.

Lemma swap_at_the_ends_witness :
  let w := Reference.store false in
  let r := swap_blocks_after_load Reference.host 99 (-1) false false false
             1 "cuda:0" 0 false false w in
  patchers (mem w) !! 1%Z = Some (Reference.patcher 7) ∧
  residency r.2 7 (Block 0) = Some "cuda:0" ∧
  residency r.2 7 (Block 2) = Some "cuda:0".
Proof.
  cbv zeta. split; [reflexivity|].
  destruct (swap_at_the_ends Reference.host 99 (-1) false false false
              1 "cuda:0" 0 false false (Reference.store false)
              (Reference.patcher 7) (Reference.net WAN21 3) eq_refl eq_refl eq_refl)
    as (Hneg & _).
  split; [apply (Hneg eq_refl 0%nat) | apply (Hneg eq_refl 2%nat)]; vm_compute; lia.
Defined.

Lemma swap_is_monotone_witness :
  let w := Reference.store false in
  (0 ≤ 1)%Z ∧
  residency (swap_blocks_after_load Reference.host 99 0 false false false
               1 "cuda:0" 0 false false w).2 7 (Block 0) = Some "cpu" ∧
  residency (swap_blocks_after_load Reference.host 99 1 false false false
               1 "cuda:0" 0 false false w).2 7 (Block 0) = Some "cpu".
Proof.
  cbv zeta. split; [lia|]. split; [reflexivity|].
  apply (swap_is_monotone Reference.host 99 0 1 false false false
           1 "cuda:0" 0 false false (Reference.store false)
           (Reference.patcher 7) (Reference.net WAN21 3) 0%nat
           eq_refl eq_refl eq_refl); [lia | reflexivity].
Defined.

Lemma admitted_cutoffs_offload_block_0_witness :
  let w := Reference.store false in
  let r := swap_blocks_after_load Reference.host 99 20 false false false
             1 "cuda:0" 0 false false w in
  WanVideoBlockSwap.admits "blocks_to_swap" 20 ∧
  ¬ WanVideoBlockSwap.admits "blocks_to_swap" 41 ∧
  residency r.2 7 (Block 0) = Some "cpu".
Proof.
  cbv zeta.
  assert (Hadm : WanVideoBlockSwap.admits "blocks_to_swap" 20).
  { exists 20%Z, 0%Z, 40%Z, 1%Z. split; [reflexivity | lia]. }
  split; [exact Hadm|]. split.
  - intros (df & lo & hi & st & Hspec & Hrange). cbn in Hspec.
    injection Hspec as <- <- <- <-. lia.
  - destruct (admitted_cutoffs_offload_block_0 Reference.host 99 20 false false false
                1 "cuda:0" 0 false false (Reference.store false)
                (Reference.patcher 7) (Reference.net WAN21 3)
                eq_refl eq_refl eq_refl Hadm) as (H0 & _).
    apply H0. vm_compute. lia.
Defined.

Lemma swap_does_not_catch_reclamation_errors_witness :
  let w := Reference.store false in
  let r := swap_blocks_after_load Reference.failing_host 99 1 false false false
             1 "cuda:0" 0 false false w in
  patchers (mem w) !! 1%Z = Some (Reference.patcher 7) ∧
  r.1 = Raise (Exception "CUDA error") ∧
  residency r.2 7 (Block 0) = Some "cpu" ∧
  GcCollect ∉ trace r.2.
Proof.
  cbv zeta. split; [reflexivity|].
  destruct (swap_does_not_catch_reclamation_errors Reference.failing_host 99 1
              false false false 1 "cuda:0" 0 false false (Reference.store false)
              (Reference.patcher 7) (Reference.net WAN21 3) (Exception "CUDA error")
              eq_refl eq_refl eq_refl) as (Hcache & _).
  destruct (Hcache 4096%N eq_refl) as (Hr & Htr & _ & Hres).
  split; [exact Hr|]. split; [apply (Hres 0%nat); vm_compute; lia|].
  rewrite Htr. vm_compute. intros Hin.
  repeat (apply elem_of_cons in Hin as [Hin|Hin]; [discriminate Hin|]).
  by apply elem_of_nil in Hin.
Defined.

Lemma cleanup_does_not_catch_reclamation_errors_witness :
  let w := Reference.store false in
  let r := cleanup_after_sampling Reference.failing_host 99 1 w in
  patchers (mem w) !! 1%Z = Some (Reference.patcher 7) ∧
  r.1 = Raise (Exception "CUDA error") ∧
  Reference.patched (patch_layer (mem r.2)) = [] ∧
  trace r.2 =
    [Log INFO "-[ CLEANUP_AFTER_SAMPLING CALLBACK (99) START | Patcher ID: 1 ]-";
     UnpatchModel 1 "cpu" true;
     SoftEmptyCache].
Proof.
  cbv zeta. split; [reflexivity|].
  destruct (cleanup_does_not_catch_reclamation_errors Reference.failing_host 99 1
              (Reference.store false) (Reference.patcher 7)
              (alter (Reference.move_all "cpu") 7%Z (models (mem (Reference.store false))))
              {| Reference.patched := []; Reference.jammed := false |}
              (Exception "CUDA error") eq_refl eq_refl) as (Hcache & _).
  destruct (Hcache 4096%N eq_refl) as (Hr & Htr & _ & Hpl).
  split; [exact Hr|]. split; [by rewrite Hpl | exact Htr].
Defined.

Lemma transfers_go_in_index_order_witness :
  let w := Reference.store false in
  let r := swap_blocks_after_load Reference.host 99 1 true true true
             1 "cuda:0" 0 false false w in
  patchers (mem w) !! 1%Z = Some (Reference.patcher 7) ∧
  filter (λ ev, is_transfer ev = true) (trace r.2)
  = [ModuleTo 7 (Block 0) "cpu" false;
     ModuleTo 7 (Block 1) "cpu" false;
     ModuleTo 7 (Block 2) "cuda:0" false;
     ModuleTo 7 TextEmbedding "cpu" true;
     ModuleTo 7 ImgEmb "cpu" true].
Proof.
  cbv zeta. split; [reflexivity|].
  destruct (transfers_go_in_index_order Reference.host 99 1 true true true
              1 "cuda:0" 0 false false (Reference.store false)
              (Reference.patcher 7) (Reference.net WAN21 3) eq_refl eq_refl eq_refl)
    as (evs & Htr & Hfilter).
  rewrite Htr. cbn [trace Reference.store app]. rewrite Hfilter. reflexivity.
Defined.

Lemma chained_nodes_keep_both_registrations_witness :
  let w := Reference.store false in
  let r1 := set_callback 99 1 20 false false false w in
  let r2 := set_callback 99 3 5 true true true r1.2 in
  patchers (mem w) !! 1%Z = Some (Reference.patcher 7) ∧
  r1.1 = Ok 3%Z ∧ r2.1 = Ok 4%Z ∧
  (callbacks_at <$> patchers (mem r2.2) !! 4%Z)
    ≫= (λ at_, Some (at_ "on_load" "wan_block_swap_99"))
  = Some [swap_blocks_after_load_cb 99 20 false false false;
          swap_blocks_after_load_cb 99 5 true true true].
Proof.
  cbv zeta.
  destruct (chained_nodes_keep_both_registrations 99 20 false false false
              99 5 true true true 1 (Reference.store false) (Reference.patcher 7) eq_refl)
    as (h1 & h2 & p1 & p2 & Hh1 & Hh2 & _ & _ & _ & _ & _ & Hp2 & _ & Hcbs).
  assert (E1 : h1 = 3%Z) by (vm_compute in Hh1; congruence). subst h1.
  assert (E2 : h2 = 4%Z) by (vm_compute in Hh2; congruence). subst h2.
  split; [reflexivity|]. split; [exact Hh1|]. split; [exact Hh2|].
  rewrite Hp2. cbn [fmap option_fmap option_map mbind option_bind].
  rewrite Hcbs. reflexivity.
Defined.

Lemma configured_policy_reaches_the_model_witness :
  let w := Reference.store false in
  let r := set_callback 99 1 1 true false false w in
  let r' := fire_on_load Reference.host (swap_blocks_after_load_cb 99 1 true false false)
              3 "cuda:0" 0 false false r.2 in
  patchers (mem w) !! 1%Z = Some (Reference.patcher 7) ∧
  callbacks_at (Reference.patcher 7) CallbacksMP.ON_LOAD (swap_key 99) = [] ∧
  residency r'.2 7 (Block 1) = Some "cpu" ∧
  residency r'.2 7 (Block 2) = Some "cuda:0" ∧
  residency r'.2 7 TextEmbedding = Some "cpu" ∧
  residency r'.2 7 ImgEmb = Some "cuda:0".
Proof.
  cbv zeta.
  destruct (configured_policy_reaches_the_model Reference.host 99 1 1 true false false
              "cuda:0" 0 false false (Reference.store false)
              (Reference.patcher 7) (Reference.net WAN21 3)
              eq_refl eq_refl eq_refl eq_refl)
    as (h' & p' & cb & Hh' & Hp' & Hcb & Hblocks & Htxt & Himg & _).
  assert (E : h' = 3%Z) by (vm_compute in Hh'; congruence). subst h'.
  assert (Ecb : cb = swap_blocks_after_load_cb 99 1 true false false).
  { vm_compute in Hp'. injection Hp' as <-. vm_compute in Hcb. congruence. }
  subst cb.
  split; [reflexivity|]. split; [reflexivity|].
  split; [apply (Hblocks 1%nat); vm_compute; lia|].
  split; [apply (Hblocks 2%nat); vm_compute; lia|].
  split; [exact Htxt | exact Himg].
Defined.

Lemma patches_fill_in_what_is_missing_witness :
  let r := Compat.version_compatibility_patches Compat.legacy in
  r.1 = Ok tt ∧
  Compat.namespace r.2 !! "load_model_gpu" = Some Compat.load_model_gpu_wrapper ∧
  Compat.namespace r.2 !! "cleanup_models_gc" = Some (Compat.host_object "cleanup_models") ∧
  Compat.namespace r.2 !! "load_models_gpu" = Some (Compat.host_object "load_models_gpu").
Proof.
  cbv zeta.
  destruct (patches_fill_in_what_is_missing Compat.legacy
              (Compat.version_compatibility_patches Compat.legacy).2 eq_refl)
    as (_ & _ & Hkeep & _ & Hwrap & Hgc).
  split; [reflexivity|]. split; [exact (Hwrap eq_refl)|].
  split; [rewrite (Hgc eq_refl); reflexivity|].
  exact (Hkeep "load_models_gpu" (Compat.host_object "load_models_gpu") eq_refl).
Defined.

Lemma patches_are_idempotent_witness :
  let r := Compat.version_compatibility_patches Compat.legacy in
  r.1 = Ok tt ∧
  Compat.version_compatibility_patches r.2 = (Ok tt, r.2) ∧
  length (Compat.warnings r.2) = 2%nat.
Proof.
  cbv zeta.
  destruct (patches_are_idempotent Compat.legacy
              (Compat.version_compatibility_patches Compat.legacy).2 eq_refl)
    as (Hagain & Hwarn).
  split; [reflexivity|]. split; [exact Hagain|]. rewrite Hwarn. reflexivity.
Defined.

Lemma patched_load_model_gpu_wraps_load_models_gpu_witness :
  let r := Compat.version_compatibility_patches Compat.legacy in
  r.1 = Ok tt ∧
  Compat.call_load_model_gpu (Compat.namespace r.2) 1
  = Ok ("load_models_gpu", Compat.several [1%Z]).
Proof.
  cbv zeta.
  destruct (patched_load_model_gpu_wraps_load_models_gpu Compat.legacy
              (Compat.version_compatibility_patches Compat.legacy).2 1 eq_refl)
    as (Hwrap & _).
  split; [reflexivity|]. exact (Hwrap "load_models_gpu" eq_refl eq_refl).
Defined.

(** ** One device for both roles *)

(** X18: when the patcher's load device and offload device are the same
    device, [blocks_to_swap] has no effect: every cutoff gives the same
    store, with every block on that device. *)
Theorem one_device_makes_the_cutoff_moot {PL AL : Type} (host : host_ops PL AL)
    i c c' t e nb h d l f fl (w : world PL AL) p bm :
  patchers (mem w) !! h = Some p →
  models (mem w) !! model p = Some bm →
  isinstance_WAN21 (class_of bm) = true →
  load_device p = offload_device p →
  mem (swap_blocks_after_load host i c t e nb h d l f fl w).2
  = mem (swap_blocks_after_load host i c' t e nb h d l f fl w).2
  ∧ ∀ b, (b < length (blocks (diffusion_model bm)))%nat →
         residency (swap_blocks_after_load host i c t e nb h d l f fl w).2
           (model p) (Block b) = Some (load_device p).
Proof.
  intros Hp Hm Hc Hsame. split.
  - rewrite !(swap_WAN21_mem host i _ t e nb h d l f fl w p bm Hp Hm Hc).
    do 2 f_equal. rewrite !swap_placed_unfold. do 2 f_equal.
    apply list_eq. intros j. rewrite !place_from_lookup.
    case_decide as Hj; [|done]. unfold target_dev. rewrite Hsame.
    by destruct (Z.of_nat j >? c)%Z, (Z.of_nat j >? c')%Z.
  - intros b Hb. rewrite (swap_block_residency host _ _ _ _ _ _ _ _ _ _ _ _ bm) by done.
    unfold target_dev. rewrite Hsame. by destruct (Z.of_nat b >? c)%Z.
Qed.

Lemma one_device_makes_the_cutoff_moot_witness :
  let p := {| model := 7; load_device := "cpu"; offload_device := "cpu"; callbacks := ∅ |} in
  let w := {| mem := {| patchers := {[ 1%Z := p ]};
                        models := {[ 7%Z := Reference.net WAN21 3 ]};
                        patch_layer := {| Reference.patched := []; Reference.jammed := false |} |};
              allocator := 0%N;
              trace := [] |} in
  load_device p = offload_device p ∧
  mem (swap_blocks_after_load Reference.host 99 0 false false false
         1 "cuda:0" 0 false false w).2
  = mem (swap_blocks_after_load Reference.host 99 40 false false false
           1 "cuda:0" 0 false false w).2.
Proof.
  intros p w. split; [reflexivity|].
  exact (proj1 (one_device_makes_the_cutoff_moot Reference.host 99 0 40 false false false
                  1 "cuda:0" 0 false false w p (Reference.net WAN21 3)
                  eq_refl eq_refl eq_refl eq_refl)).
Defined.
